(** * BabyMicrowave: the door / run / bing controller of [BabyMicrowave.ino]

    A shallow embedding of the sketch's [setup] and [loop] for its target,
    the ATtiny13a (avr-gcc): [byte] is 8 bits, [int] and [unsigned int] are
    16 bits, [unsigned long] is 32 bits.  Integers are modelled in [Z] with
    every conversion and wrap-around written out; the packed [state] byte is
    kept as a number and handled with the sketch's own bit macros. *)

From Stdlib Require Import ZArith List Bool Lia.
Import ListNotations.

Local Open Scope Z_scope.
Local Open Scope bool_scope.

(** ** Machine integers *)

Module Avr.

(** Assignment to a [byte]. *)
Definition to_byte (z : Z) : Z := z mod 2 ^ 8.

(** Conversion to [unsigned int]. *)
Definition to_uint (z : Z) : Z := z mod 2 ^ 16.

(** Conversion to [unsigned long]. *)
Definition to_ulong (z : Z) : Z := z mod 2 ^ 32.

(** Conversion to [int]: the low 16 bits, read in two's complement. *)
Definition to_int (z : Z) : Z := (z + 2 ^ 15) mod 2 ^ 16 - 2 ^ 15.

End Avr.
Import Avr.

(** ** Pins, levels and the hardware calls the sketch makes *)

Inductive Pin : Type := BUTTON_PIN | LIGHT_PIN | SPEAKER_PIN | TIMER_PIN.

Inductive Level : Type := LOW | HIGH.

Inductive PinMode : Type := OUTPUT | INPUT_PULLUP.

Inductive HwCall : Type :=
| pinMode (p : Pin) (m : PinMode)
| digitalWrite (p : Pin) (l : Level)
| noTone (p : Pin)
| tone (p : Pin) (frequency : Z) (duration : Z).

Definition is_LOW (l : Level) : bool :=
  match l with LOW => true | HIGH => false end.

(** ** Constants *)

Definition TONE_FREQ_COOKING : Z := 80.
Definition TONE_FREQ_BING : Z := 2500.
Definition BING_DURATION_MS : Z := 350.
Definition ON_DURATION_MIN_MS : Z := 2000.
Definition ON_DURATION_RANGE_SECS : Z := 18.
Definition DEBOUNCE_TIME : Z := 100.

(** ** Build configuration

    [SPEAKER_PIN] and [TIMER_PIN] are tested with [#ifdef]; [LIGHT_PIN] and
    [BUTTON_PIN] are used unconditionally. *)

Record Config : Type := {
  has_speaker : bool;
  has_timer : bool
}.

(** The sketch as distributed defines both optional pins. *)
Definition as_shipped : Config := {| has_speaker := true; has_timer := true |}.

Definition ifdef_speaker (cfg : Config) (calls : list HwCall) : list HwCall :=
  if has_speaker cfg then calls else [].

Definition ifdef_timer (cfg : Config) (calls : list HwCall) : list HwCall :=
  if has_timer cfg then calls else [].

(** ** The packed flag byte and its macros *)

Definition IS_CLOSED (state : Z) : bool := Z.land state 1 =? 1.
Definition SET_CLOSED (state : Z) : Z := to_byte (Z.lor state 1).
Definition IS_OPEN (state : Z) : bool := Z.land (Z.lnot state) 1 =? 1.
Definition SET_OPEN (state : Z) : Z := to_byte (Z.land state (Z.lnot 1)).

Definition IS_ON (state : Z) : bool := Z.land state 2 =? 2.
Definition SET_ON (state : Z) : Z := to_byte (Z.lor state 2).
Definition IS_OFF (state : Z) : bool := Z.land (Z.lnot state) 2 =? 2.
Definition SET_OFF (state : Z) : Z := to_byte (Z.land state (Z.lnot 2)).

Definition WAS_CLOSED (state : Z) : bool := Z.land state 4 =? 4.
Definition SET_WAS_CLOSED (state : Z) : Z := to_byte (Z.lor state 4).
Definition WAS_OPEN (state : Z) : bool := Z.land (Z.lnot state) 4 =? 4.
Definition SET_WAS_OPEN (state : Z) : Z := to_byte (Z.land state (Z.lnot 4)).

Definition IS_BINGING (state : Z) : bool := Z.land state 8 =? 8.
Definition SET_BINGING (state : Z) : Z := to_byte (Z.lor state 8).
Definition IS_FINISHED_BINGING (state : Z) : bool :=
  Z.land (Z.lnot state) 8 =? 8.
Definition SET_FINISHED_BINGING (state : Z) : Z :=
  to_byte (Z.land state (Z.lnot 8)).

Definition REMEMBER_IF_CLOSED (state : Z) : Z :=
  if IS_CLOSED state then SET_WAS_CLOSED state else SET_WAS_OPEN state.

(** ** Globals *)

Record Globals : Type := {
  stateChangeTime : Z;   (* unsigned long *)
  state : Z;             (* byte *)
  onDuration : Z         (* int *)
}.

Definition static_init : Globals :=
  {| stateChangeTime := 0; state := 0; onDuration := ON_DURATION_MIN_MS |}.

Definition with_state (g : Globals) (st : Z) : Globals :=
  {| stateChangeTime := stateChangeTime g;
     state := st;
     onDuration := onDuration g |}.

(** ** What one pass of [loop] reads from the outside world

    [millis()] is called once for the debounce test and once more on the
    paths that go on (lines 105 and 169 are on exclusive branches), so a
    pass sees at most two clock values. *)

Record Inputs : Type := {
  millis_gate : Z;       (* millis() at line 89 *)
  millis_body : Z;       (* millis() at line 105 or 169 *)
  button : Level;        (* digitalRead(BUTTON_PIN) *)
  analog : Z             (* analogRead(TIMER_ANALOG_PIN), 0..1023 *)
}.

(** A pass during which the clock does not advance: the [tick] of the
    design notes. *)
Definition at_time (now : Z) (door : Level) (raw : Z) : Inputs :=
  {| millis_gate := now; millis_body := now; button := door; analog := raw |}.

(** ** [setup] *)

Definition setup (cfg : Config) (boot : Z) (g : Globals)
  : Globals * list HwCall :=
  ({| stateChangeTime := boot;
      state := SET_FINISHED_BINGING (SET_OFF (SET_CLOSED (state g)));
      onDuration := onDuration g |},
   [pinMode LIGHT_PIN OUTPUT; pinMode BUTTON_PIN INPUT_PULLUP]
     ++ ifdef_timer cfg [pinMode TIMER_PIN INPUT_PULLUP]
     ++ ifdef_speaker cfg [pinMode SPEAKER_PIN OUTPUT]
     ++ [digitalWrite LIGHT_PIN LOW]).

Definition boot_state (cfg : Config) (boot : Z) : Globals :=
  fst (setup cfg boot static_init).

(** ** [loop] *)

(** Lines 165-166: [reading] is an [unsigned int]; the product and the sum
    are computed in [unsigned int] and the result is stored in the [int]
    [onDuration]. *)
Definition timer_reading (raw : Z) : Z := to_uint (1024 - raw).

Definition duration_of_reading (reading : Z) : Z :=
  to_int (to_uint (ON_DURATION_MIN_MS
                   + to_uint (reading * ON_DURATION_RANGE_SECS))).

(** Line 105: the difference is taken in [unsigned long] and then stored
    in an [int]. *)
Definition timeSinceClose (now : Z) (g : Globals) : Z :=
  to_int (to_ulong (now - stateChangeTime g)).

(** Line 89. *)
Definition debouncing (now : Z) (g : Globals) : bool :=
  to_ulong (now - stateChangeTime g) <? DEBOUNCE_TIME.

(** Lines 93-98. *)
Definition sample_door (door : Level) (st : Z) : Z :=
  let st := REMEMBER_IF_CLOSED st in
  if is_LOW door then SET_CLOSED st else SET_OPEN st.

Definition loop (cfg : Config) (inp : Inputs) (g : Globals)
  : Globals * list HwCall :=
  if debouncing (millis_gate inp) g then (g, [])
  else
    let st := sample_door (button inp) (state g) in
    if WAS_CLOSED st then
      let elapsed := timeSinceClose (millis_body inp) g in
      if IS_OPEN st then
        (with_state g (SET_FINISHED_BINGING (SET_OFF (SET_OPEN st))),
         digitalWrite LIGHT_PIN HIGH
           :: ifdef_speaker cfg
                [noTone SPEAKER_PIN; digitalWrite SPEAKER_PIN LOW])
      else if IS_ON st && (onDuration g <? elapsed) then
        (with_state g (SET_BINGING (SET_OFF st)),
         digitalWrite LIGHT_PIN LOW
           :: ifdef_speaker cfg
                [tone SPEAKER_PIN TONE_FREQ_BING BING_DURATION_MS])
      else if IS_OFF st && IS_BINGING st
              && (to_int (onDuration g + BING_DURATION_MS) <? elapsed) then
        (with_state g (SET_FINISHED_BINGING st), [])
      else (with_state g st, [])
    else if WAS_OPEN st && IS_CLOSED st then
      let duration :=
        if has_timer cfg
        then duration_of_reading (timer_reading (analog inp))
        else onDuration g in
      ({| stateChangeTime := millis_body inp;
          state := SET_ON (SET_CLOSED st);
          onDuration := duration |},
       digitalWrite LIGHT_PIN HIGH
         :: ifdef_speaker cfg
              [tone SPEAKER_PIN TONE_FREQ_COOKING (to_ulong duration)])
    else (with_state g st, []).

(** One pass at a single clock value. *)
Definition tick (cfg : Config) (now : Z) (door : Level) (raw : Z)
                (g : Globals) : Globals * list HwCall :=
  loop cfg (at_time now door raw) g.

(** Running a list of passes, oldest first, collecting the calls. *)
Fixpoint run (cfg : Config) (inps : list Inputs) (g : Globals)
  : Globals * list HwCall :=
  match inps with
  | [] => (g, [])
  | inp :: rest =>
      let (g1, out1) := loop cfg inp g in
      let (g2, out2) := run cfg rest g1 in
      (g2, out1 ++ out2)
  end.

(** The flags as the design notes name them. *)
Definition doorClosed (g : Globals) : bool := IS_CLOSED (state g).
Definition wasClosed (g : Globals) : bool := WAS_CLOSED (state g).
Definition running (g : Globals) : bool := IS_ON (state g).
Definition binging (g : Globals) : bool := IS_BINGING (state g).

(** States the sketch can be in: after [setup], and after any pass. *)
Inductive reachable (cfg : Config) : Globals -> Prop :=
| reach_boot : forall boot, reachable cfg (boot_state cfg boot)
| reach_loop : forall g inp,
    reachable cfg g -> reachable cfg (fst (loop cfg inp g)).

(** A pass gets past line 91 and finds the switch newly pressed. *)
Definition recognizes_close (inp : Inputs) (g : Globals) : bool :=
  negb (debouncing (millis_gate inp) g)
  && negb (IS_CLOSED (state g))
  && is_LOW (button inp).

(** The four transitions of a pass, as tests on what it reads and on the
    globals before it.  [recognizes_close] is above. *)
Definition recognizes_open (inp : Inputs) (g : Globals) : bool :=
  negb (debouncing (millis_gate inp) g)
  && IS_CLOSED (state g)
  && negb (is_LOW (button inp)).

Definition timer_expires (inp : Inputs) (g : Globals) : bool :=
  negb (debouncing (millis_gate inp) g)
  && IS_CLOSED (state g)
  && is_LOW (button inp)
  && IS_ON (state g)
  && (onDuration g <? timeSinceClose (millis_body inp) g).

Definition bing_finishes (inp : Inputs) (g : Globals) : bool :=
  negb (debouncing (millis_gate inp) g)
  && IS_CLOSED (state g)
  && is_LOW (button inp)
  && negb (IS_ON (state g))
  && IS_BINGING (state g)
  && (to_int (onDuration g + BING_DURATION_MS)
      <? timeSinceClose (millis_body inp) g).

Definition recognized_transition (inp : Inputs) (g : Globals) : bool :=
  recognizes_close inp g || recognizes_open inp g
  || timer_expires inp g || bing_finishes inp g.

(** What the flags satisfy in every state the sketch gets into: the timer
    and the bing are never on together, and an open door means no bing. *)
Definition flags_ok (g : Globals) : Prop :=
  running g && binging g = false
  /\ (doorClosed g = false -> binging g = false).

(** ** Some runs of the sketch as shipped, used as test inputs

    Boot at clock 0 with the door in fact open; the first pass after the
    debounce time sees it. *)
Definition door_open_state : Globals :=
  fst (run as_shipped [at_time 100 HIGH 1023] (boot_state as_shipped 0)).

(** Then the door is shut at 200 ms with the knob fully off (the pin reads
    1023): the timer starts. *)
Definition cooking_state : Globals :=
  fst (tick as_shipped 200 LOW 1023 door_open_state).

(** The first pass after the timer has run out: the bing starts. *)
Definition binging_state : Globals :=
  fst (tick as_shipped 2219 LOW 1023 cooking_state).

(** The door is opened again at 700 ms, in the middle of cooking. *)
Definition reopened_state : Globals :=
  fst (tick as_shipped 700 HIGH 1023 cooking_state).

(** A build with the timer pin commented out, booted 300 ms before the
    32-bit clock wraps, door open. *)
Definition without_timer : Config :=
  {| has_speaker := true; has_timer := false |}.

Definition open_before_wrap : Globals :=
  fst (run without_timer [at_time 4294967146 HIGH 0]
         (boot_state without_timer 4294966996)).

(** ** Further vocabulary for the properties of [setup] and [loop]

    The four flags of a state byte, in bit order. *)
Definition flags_of (st : Z) : bool * bool * bool * bool :=
  (IS_CLOSED st, IS_ON st, WAS_CLOSED st, IS_BINGING st).

(** The level of the light pin after a list of calls: the last
    [digitalWrite] to [LIGHT_PIN] wins. *)
Fixpoint light_after (level : Level) (calls : list HwCall) : Level :=
  match calls with
  | [] => level
  | digitalWrite LIGHT_PIN l :: rest => light_after l rest
  | _ :: rest => light_after level rest
  end.

(** The calls a pass of [loop] may make in a given build. *)
Definition pass_call_ok (cfg : Config) (call : HwCall) : bool :=
  match call with
  | digitalWrite LIGHT_PIN _ => true
  | digitalWrite SPEAKER_PIN LOW => has_speaker cfg
  | noTone SPEAKER_PIN => has_speaker cfg
  | tone SPEAKER_PIN frequency duration =>
      has_speaker cfg
      && ((frequency =? TONE_FREQ_COOKING)
          || (frequency =? TONE_FREQ_BING) && (duration =? BING_DURATION_MS))
  | _ => false
  end.

(** States reached when every [analogRead] returns a 10-bit value. *)
Inductive reachable_adc (cfg : Config) : Globals -> Prop :=
| adc_boot : forall boot, reachable_adc cfg (boot_state cfg boot)
| adc_loop : forall g inp,
    reachable_adc cfg g -> 0 <= analog inp <= 1023 ->
    reachable_adc cfg (fst (loop cfg inp g)).

(** The level the light pin should have in a given state. *)
Definition light_for (g : Globals) : Level :=
  if negb (doorClosed g) || running g then HIGH else LOW.

(** ** Polled passes

    The time since the recorded close as the 32-bit clock gives it, before
    line 105 stores it in an [int]. *)
Definition elapsed32 (now : Z) (g : Globals) : Z :=
  to_ulong (now - stateChangeTime g).

(** The pass as the design describes it, for comparison with [loop]: the
    elapsed time is the unsigned difference over the full width of the
    clock and is compared as such, and [onDuration + BING_DURATION] is the
    exact sum.  Everything else is [loop]. *)
Definition loop_full_width (cfg : Config) (inp : Inputs) (g : Globals)
  : Globals * list HwCall :=
  if debouncing (millis_gate inp) g then (g, [])
  else
    let st := sample_door (button inp) (state g) in
    if WAS_CLOSED st then
      let elapsed := elapsed32 (millis_body inp) g in
      if IS_OPEN st then
        (with_state g (SET_FINISHED_BINGING (SET_OFF (SET_OPEN st))),
         digitalWrite LIGHT_PIN HIGH
           :: ifdef_speaker cfg
                [noTone SPEAKER_PIN; digitalWrite SPEAKER_PIN LOW])
      else if IS_ON st && (onDuration g <? elapsed) then
        (with_state g (SET_BINGING (SET_OFF st)),
         digitalWrite LIGHT_PIN LOW
           :: ifdef_speaker cfg
                [tone SPEAKER_PIN TONE_FREQ_BING BING_DURATION_MS])
      else if IS_OFF st && IS_BINGING st
              && (onDuration g + BING_DURATION_MS <? elapsed) then
        (with_state g (SET_FINISHED_BINGING st), [])
      else (with_state g st, [])
    else if WAS_OPEN st && IS_CLOSED st then
      let duration :=
        if has_timer cfg
        then duration_of_reading (timer_reading (analog inp))
        else onDuration g in
      ({| stateChangeTime := millis_body inp;
          state := SET_ON (SET_CLOSED st);
          onDuration := duration |},
       digitalWrite LIGHT_PIN HIGH
         :: ifdef_speaker cfg
              [tone SPEAKER_PIN TONE_FREQ_COOKING (to_ulong duration)])
    else (with_state g st, []).

(** [loop()] is called again and again with nothing in between: a pass
    reads the clock at most [gap] ms after the previous pass last read it
    (the clock may wrap), its second reading is not before its first, and
    [analogRead] returns a 10-bit value. *)
Definition next_pass (gap last : Z) (inp : Inputs) : Prop :=
  exists d1 d2,
    0 <= d1 <= d2 /\ d2 <= gap
    /\ millis_gate inp = to_ulong (last + d1)
    /\ millis_body inp = to_ulong (last + d2)
    /\ 0 <= analog inp <= 1023.

(** The states of a sketch polled in this way, each with the clock value
    its last pass ended on. *)
Inductive polled (cfg : Config) (gap : Z) : Globals -> Z -> Prop :=
| polled_boot : forall boot, polled cfg gap (boot_state cfg boot) boot
| polled_pass : forall g last inp,
    polled cfg gap g last -> next_pass gap last inp ->
    polled cfg gap (fst (loop cfg inp g)) (millis_body inp).

(** While the door is closed and a timer is pending, the last pass was not
    long after the moment it waits for. *)
Definition timers_in_range (gap : Z) (g : Globals) (last : Z) : Prop :=
  (doorClosed g = true -> running g = true ->
   elapsed32 last g <= onDuration g + gap)
  /\ (doorClosed g = true -> binging g = true ->
      elapsed32 last g <= onDuration g + BING_DURATION_MS + 2 * gap).

(** A sketch as shipped, booted 300 ms before the clock wraps, polled at
    most every 3 s: a pass 100 ms after boot finds the door open, the door
    is shut as the clock wraps to 0 with the knob fully off, and a pass at
    2000 ms finds the timer still running. *)
Definition cooking_across_wrap : Globals :=
  fst (loop as_shipped (at_time 2000 LOW 1023)
         (fst (loop as_shipped (at_time 0 LOW 1023)
                 (fst (loop as_shipped (at_time 4294967096 HIGH 1023)
                         (boot_state as_shipped 4294966996)))))).

(** * Proofs *)

(** ** The flag macros, bit by bit *)

Section FlagBits.

Lemma mask_test (st k : Z) :
  0 <= k -> (Z.land st (2 ^ k) =? 2 ^ k) = Z.testbit st k.
Proof.
  intros Hk. destruct (Z.testbit st k) eqn:E.
  - apply Z.eqb_eq, Z.bits_inj'. intros n _.
    rewrite Z.land_spec, Z.pow2_bits_eqb by assumption.
    destruct (Z.eqb_spec k n) as [->|_].
    + now rewrite E.
    + apply andb_false_r.
  - apply Z.eqb_neq. intros H.
    apply (f_equal (fun z => Z.testbit z k)) in H.
    rewrite Z.land_spec, Z.pow2_bits_true, E in H by assumption.
    discriminate.
Qed.

Lemma mask_test_lnot (st k : Z) :
  0 <= k -> (Z.land (Z.lnot st) (2 ^ k) =? 2 ^ k) = negb (Z.testbit st k).
Proof.
  intros Hk. now rewrite mask_test, Z.lnot_spec.
Qed.

Lemma set_bit_test (st k j : Z) :
  0 <= k -> 0 <= j ->
  Z.testbit (to_byte (Z.lor st (2 ^ k))) j
  = (j <? 8) && (Z.testbit st j || (k =? j)).
Proof.
  intros Hk Hj. unfold to_byte.
  now rewrite Z.testbit_mod_pow2, Z.lor_spec, Z.pow2_bits_eqb by lia.
Qed.

Lemma clear_bit_test (st k j : Z) :
  0 <= k -> 0 <= j ->
  Z.testbit (to_byte (Z.land st (Z.lnot (2 ^ k)))) j
  = (j <? 8) && (Z.testbit st j && negb (k =? j)).
Proof.
  intros Hk Hj. unfold to_byte.
  now rewrite Z.testbit_mod_pow2, Z.land_spec, Z.lnot_spec,
    Z.pow2_bits_eqb by lia.
Qed.

Lemma to_byte_range (z : Z) : 0 <= to_byte z < 256.
Proof. unfold to_byte. apply Z.mod_pos_bound. reflexivity. Qed.

(** Two bytes with the same eight bits are equal. *)
Lemma byte_ext (a b : Z) :
  0 <= a < 256 -> 0 <= b < 256 ->
  (forall j, 0 <= j < 8 -> Z.testbit a j = Z.testbit b j) -> a = b.
Proof.
  intros Ha Hb H. apply Z.bits_inj'. intros n Hn.
  destruct (Z_lt_le_dec n 8) as [Hlt|Hge].
  - apply H. lia.
  - rewrite <- (Z.mod_small a (2 ^ 8)), <- (Z.mod_small b (2 ^ 8))
      by (change (2 ^ 8) with 256; lia).
    now rewrite !Z.mod_pow2_bits_high by lia.
Qed.

End FlagBits.

(** The readers are bit tests. *)
Lemma IS_CLOSED_bit st : IS_CLOSED st = Z.testbit st 0.
Proof. exact (mask_test st 0 ltac:(lia)). Qed.

Lemma IS_OPEN_bit st : IS_OPEN st = negb (Z.testbit st 0).
Proof. exact (mask_test_lnot st 0 ltac:(lia)). Qed.

Lemma IS_ON_bit st : IS_ON st = Z.testbit st 1.
Proof. exact (mask_test st 1 ltac:(lia)). Qed.

Lemma IS_OFF_bit st : IS_OFF st = negb (Z.testbit st 1).
Proof. exact (mask_test_lnot st 1 ltac:(lia)). Qed.

Lemma WAS_CLOSED_bit st : WAS_CLOSED st = Z.testbit st 2.
Proof. exact (mask_test st 2 ltac:(lia)). Qed.

Lemma WAS_OPEN_bit st : WAS_OPEN st = negb (Z.testbit st 2).
Proof. exact (mask_test_lnot st 2 ltac:(lia)). Qed.

Lemma IS_BINGING_bit st : IS_BINGING st = Z.testbit st 3.
Proof. exact (mask_test st 3 ltac:(lia)). Qed.

Lemma IS_FINISHED_BINGING_bit st :
  IS_FINISHED_BINGING st = negb (Z.testbit st 3).
Proof. exact (mask_test_lnot st 3 ltac:(lia)). Qed.

(** The writers set or clear one bit and truncate to a byte. *)
Lemma SET_CLOSED_bit st j :
  0 <= j -> Z.testbit (SET_CLOSED st) j = (j <? 8) && (Z.testbit st j || (0 =? j)).
Proof. intros; now apply (set_bit_test st 0). Qed.

Lemma SET_OPEN_bit st j :
  0 <= j ->
  Z.testbit (SET_OPEN st) j = (j <? 8) && (Z.testbit st j && negb (0 =? j)).
Proof. intros; now apply (clear_bit_test st 0). Qed.

Lemma SET_ON_bit st j :
  0 <= j -> Z.testbit (SET_ON st) j = (j <? 8) && (Z.testbit st j || (1 =? j)).
Proof. intros; now apply (set_bit_test st 1). Qed.

Lemma SET_OFF_bit st j :
  0 <= j ->
  Z.testbit (SET_OFF st) j = (j <? 8) && (Z.testbit st j && negb (1 =? j)).
Proof. intros; now apply (clear_bit_test st 1). Qed.

Lemma SET_WAS_CLOSED_bit st j :
  0 <= j ->
  Z.testbit (SET_WAS_CLOSED st) j = (j <? 8) && (Z.testbit st j || (2 =? j)).
Proof. intros; now apply (set_bit_test st 2). Qed.

Lemma SET_WAS_OPEN_bit st j :
  0 <= j ->
  Z.testbit (SET_WAS_OPEN st) j = (j <? 8) && (Z.testbit st j && negb (2 =? j)).
Proof. intros; now apply (clear_bit_test st 2). Qed.

Lemma SET_BINGING_bit st j :
  0 <= j ->
  Z.testbit (SET_BINGING st) j = (j <? 8) && (Z.testbit st j || (3 =? j)).
Proof. intros; now apply (set_bit_test st 3). Qed.

Lemma SET_FINISHED_BINGING_bit st j :
  0 <= j ->
  Z.testbit (SET_FINISHED_BINGING st) j
  = (j <? 8) && (Z.testbit st j && negb (3 =? j)).
Proof. intros; now apply (clear_bit_test st 3). Qed.

Lemma REMEMBER_IF_CLOSED_bit st j :
  0 <= j ->
  Z.testbit (REMEMBER_IF_CLOSED st) j
  = (j <? 8) && (if 2 =? j then Z.testbit st 0 else Z.testbit st j).
Proof.
  intros Hj. unfold REMEMBER_IF_CLOSED. rewrite IS_CLOSED_bit.
  destruct (Z.testbit st 0) eqn:E.
  - rewrite SET_WAS_CLOSED_bit by assumption.
    destruct (2 =? j); [now rewrite orb_true_r | now rewrite orb_false_r].
  - rewrite SET_WAS_OPEN_bit by assumption.
    destruct (2 =? j); simpl;
      [now rewrite andb_false_r | now rewrite andb_true_r].
Qed.

Lemma sample_door_bit door st j :
  0 <= j ->
  Z.testbit (sample_door door st) j
  = (j <? 8) && (if 0 =? j then is_LOW door
                 else if 2 =? j then Z.testbit st 0
                 else Z.testbit st j).
Proof.
  intros Hj. unfold sample_door.
  destruct (is_LOW door).
  - rewrite SET_CLOSED_bit, REMEMBER_IF_CLOSED_bit by assumption.
    destruct (j <? 8), (0 =? j), (2 =? j), (Z.testbit st 0), (Z.testbit st j);
      reflexivity.
  - rewrite SET_OPEN_bit, REMEMBER_IF_CLOSED_bit by assumption.
    destruct (j <? 8), (0 =? j), (2 =? j), (Z.testbit st 0), (Z.testbit st j);
      reflexivity.
Qed.

Create Rewrite HintDb flags.

#[local] Hint Rewrite
  IS_CLOSED_bit IS_OPEN_bit IS_ON_bit IS_OFF_bit
  WAS_CLOSED_bit WAS_OPEN_bit IS_BINGING_bit IS_FINISHED_BINGING_bit : flags.

#[local] Hint Rewrite
  SET_CLOSED_bit SET_OPEN_bit SET_ON_bit SET_OFF_bit
  SET_WAS_CLOSED_bit SET_WAS_OPEN_bit SET_BINGING_bit
  SET_FINISHED_BINGING_bit sample_door_bit using lia : flags.

#[local] Arguments Z.testbit _ _ : simpl never.

(** Reduce every flag test of an updated byte to bits of the original. *)
Ltac flags :=
  unfold doorClosed, wasClosed, running, binging in *; simpl state in *;
  autorewrite with flags in *; simpl in *.

(** ** What [loop] does, in terms of the flags before the pass *)

Lemma loop_cases cfg inp g :
  loop cfg inp g =
  if debouncing (millis_gate inp) g then (g, [])
  else
    let st := sample_door (button inp) (state g) in
    let elapsed := timeSinceClose (millis_body inp) g in
    if doorClosed g then
      if negb (is_LOW (button inp)) then
        (with_state g (SET_FINISHED_BINGING (SET_OFF (SET_OPEN st))),
         digitalWrite LIGHT_PIN HIGH
           :: ifdef_speaker cfg
                [noTone SPEAKER_PIN; digitalWrite SPEAKER_PIN LOW])
      else if running g && (onDuration g <? elapsed) then
        (with_state g (SET_BINGING (SET_OFF st)),
         digitalWrite LIGHT_PIN LOW
           :: ifdef_speaker cfg
                [tone SPEAKER_PIN TONE_FREQ_BING BING_DURATION_MS])
      else if negb (running g) && binging g
              && (to_int (onDuration g + BING_DURATION_MS) <? elapsed) then
        (with_state g (SET_FINISHED_BINGING st), [])
      else (with_state g st, [])
    else if is_LOW (button inp) then
      let duration :=
        if has_timer cfg
        then duration_of_reading (timer_reading (analog inp))
        else onDuration g in
      ({| stateChangeTime := millis_body inp;
          state := SET_ON (SET_CLOSED st);
          onDuration := duration |},
       digitalWrite LIGHT_PIN HIGH
         :: ifdef_speaker cfg
              [tone SPEAKER_PIN TONE_FREQ_COOKING (to_ulong duration)])
    else (with_state g st, []).
Proof.
  unfold loop. destruct (debouncing (millis_gate inp) g); [reflexivity|].
  flags.
  destruct (Z.testbit (state g) 0), (is_LOW (button inp)); reflexivity.
Qed.

(** ** Machine-integer facts *)

Lemma to_int_small z : 0 <= z < 2 ^ 15 -> to_int z = z.
Proof.
  intros H. unfold to_int.
  change (2 ^ 15) with 32768 in *. change (2 ^ 16) with 65536.
  rewrite Z.mod_small by lia. lia.
Qed.

Lemma to_uint_small z : 0 <= z < 2 ^ 16 -> to_uint z = z.
Proof. intros H. unfold to_uint. now apply Z.mod_small. Qed.

Lemma to_ulong_small z : 0 <= z < 2 ^ 32 -> to_ulong z = z.
Proof. intros H. unfold to_ulong. now apply Z.mod_small. Qed.

Lemma to_int_range z : - 2 ^ 15 <= to_int z < 2 ^ 15.
Proof.
  unfold to_int. change (2 ^ 15) with 32768. change (2 ^ 16) with 65536.
  pose proof (Z.mod_pos_bound (z + 32768) 65536 ltac:(lia)). lia.
Qed.

(** Unsigned subtraction forgets how often the clock wrapped. *)
Lemma to_ulong_elapsed t d :
  0 <= d < 2 ^ 32 -> to_ulong (to_ulong (t + d) - t) = d.
Proof.
  intros H. unfold to_ulong.
  rewrite Zminus_mod_idemp_l.
  replace (t + d - t) with d by lia. now apply Z.mod_small.
Qed.

Lemma to_ulong_same t : to_ulong (t - t) = 0.
Proof. now rewrite Z.sub_diag. Qed.

Lemma timer_reading_exact raw :
  0 <= raw <= 1023 -> timer_reading raw = 1024 - raw.
Proof.
  intros H. unfold timer_reading. apply to_uint_small.
  change (2 ^ 16) with 65536. lia.
Qed.

Lemma duration_of_reading_exact reading :
  0 <= reading <= 1024 ->
  duration_of_reading reading
  = ON_DURATION_MIN_MS + reading * ON_DURATION_RANGE_SECS.
Proof.
  intros H. unfold duration_of_reading, ON_DURATION_MIN_MS,
    ON_DURATION_RANGE_SECS.
  rewrite (to_uint_small (reading * 18)) by (change (2 ^ 16) with 65536; lia).
  rewrite to_uint_small by (change (2 ^ 16) with 65536; lia).
  apply to_int_small. change (2 ^ 15) with 32768. lia.
Qed.

(** ** Frame facts for one pass *)

Lemma gate_freezes cfg inp g :
  debouncing (millis_gate inp) g = true -> loop cfg inp g = (g, []).
Proof. intros H. unfold loop. now rewrite H. Qed.

Lemma recognizes_close_spec inp g :
  recognizes_close inp g = true <->
  debouncing (millis_gate inp) g = false
  /\ doorClosed g = false /\ is_LOW (button inp) = true.
Proof.
  unfold recognizes_close, doorClosed.
  rewrite !andb_true_iff, !negb_true_iff. tauto.
Qed.

Lemma loop_close cfg inp g :
  recognizes_close inp g = true ->
  loop cfg inp g =
  let duration :=
    if has_timer cfg
    then duration_of_reading (timer_reading (analog inp))
    else onDuration g in
  ({| stateChangeTime := millis_body inp;
      state := SET_ON (SET_CLOSED (sample_door (button inp) (state g)));
      onDuration := duration |},
   digitalWrite LIGHT_PIN HIGH
     :: ifdef_speaker cfg
          [tone SPEAKER_PIN TONE_FREQ_COOKING (to_ulong duration)]).
Proof.
  intros H. apply recognizes_close_spec in H. destruct H as (Hg & Hc & Hb).
  now rewrite loop_cases, Hg, Hc, Hb.
Qed.

Lemma loop_onDuration cfg inp g :
  onDuration (fst (loop cfg inp g)) =
  if recognizes_close inp g
  then (if has_timer cfg
        then duration_of_reading (timer_reading (analog inp))
        else onDuration g)
  else onDuration g.
Proof.
  rewrite loop_cases. unfold recognizes_close, doorClosed, running, binging.
  destruct (debouncing (millis_gate inp) g); [reflexivity|].
  destruct (IS_CLOSED (state g)), (is_LOW (button inp)); simpl;
    try reflexivity.
  destruct (IS_ON (state g) && _); [reflexivity|].
  destruct (negb (IS_ON (state g)) && _ && _); reflexivity.
Qed.

Lemma loop_stateChangeTime cfg inp g :
  stateChangeTime (fst (loop cfg inp g)) =
  if recognizes_close inp g then millis_body inp else stateChangeTime g.
Proof.
  rewrite loop_cases. unfold recognizes_close, doorClosed, running, binging.
  destruct (debouncing (millis_gate inp) g); [reflexivity|].
  destruct (IS_CLOSED (state g)), (is_LOW (button inp)); simpl;
    try reflexivity.
  destruct (IS_ON (state g) && _); [reflexivity|].
  destruct (negb (IS_ON (state g)) && _ && _); reflexivity.
Qed.

(** The hardware calls of a pass. *)
Lemma loop_output cfg inp g :
  snd (loop cfg inp g) =
  if debouncing (millis_gate inp) g then []
  else if doorClosed g then
    if negb (is_LOW (button inp)) then
      digitalWrite LIGHT_PIN HIGH
        :: ifdef_speaker cfg
             [noTone SPEAKER_PIN; digitalWrite SPEAKER_PIN LOW]
    else if running g
            && (onDuration g <? timeSinceClose (millis_body inp) g) then
      digitalWrite LIGHT_PIN LOW
        :: ifdef_speaker cfg
             [tone SPEAKER_PIN TONE_FREQ_BING BING_DURATION_MS]
    else []
  else if is_LOW (button inp) then
    digitalWrite LIGHT_PIN HIGH
      :: ifdef_speaker cfg
           [tone SPEAKER_PIN TONE_FREQ_COOKING
              (to_ulong (if has_timer cfg
                         then duration_of_reading (timer_reading (analog inp))
                         else onDuration g))]
  else [].
Proof.
  rewrite loop_cases. cbv zeta.
  destruct (debouncing (millis_gate inp) g); [reflexivity|].
  destruct (doorClosed g), (is_LOW (button inp)); simpl; try reflexivity.
  destruct (running g && _); [reflexivity|].
  destruct (negb (running g) && _ && _); reflexivity.
Qed.

(** The clock seen from [stateChangeTime]. *)
Lemma debouncing_after t d g :
  stateChangeTime g = t -> 0 <= d < 2 ^ 32 ->
  debouncing (to_ulong (t + d)) g = (d <? DEBOUNCE_TIME).
Proof.
  intros Ht Hd. unfold debouncing. now rewrite Ht, to_ulong_elapsed.
Qed.

Lemma timeSinceClose_after t d g :
  stateChangeTime g = t -> 0 <= d < 2 ^ 15 ->
  timeSinceClose (to_ulong (t + d)) g = d.
Proof.
  intros Ht Hd. unfold timeSinceClose.
  rewrite Ht, to_ulong_elapsed, to_int_small; [reflexivity|assumption|].
  change (2 ^ 15) with 32768 in Hd. change (2 ^ 32) with 4294967296. lia.
Qed.

(** ** The flag invariant *)

Lemma flags_ok_boot cfg boot : flags_ok (boot_state cfg boot).
Proof. split; [reflexivity | discriminate]. Qed.

(** The flags after a pass, from the flags before it. *)
Ltac loop_by_cases inp g :=
  rewrite loop_cases; cbv zeta;
  set (e1 := onDuration g <? timeSinceClose (millis_body inp) g);
  set (e2 := to_int (onDuration g + BING_DURATION_MS)
             <? timeSinceClose (millis_body inp) g);
  flags;
  destruct (debouncing (millis_gate inp) g);
  destruct (Z.testbit (state g) 0) eqn:Hbit0;
  destruct (is_LOW (button inp)) eqn:Hlow;
  destruct (Z.testbit (state g) 1) eqn:Hbit1;
  destruct (Z.testbit (state g) 3) eqn:Hbit3;
  destruct e1; destruct e2;
  simpl; flags; rewrite ?Hlow, ?Hbit0, ?Hbit1, ?Hbit3.

Lemma loop_running cfg inp g :
  running (fst (loop cfg inp g)) =
  if debouncing (millis_gate inp) g then running g
  else if doorClosed g then
    is_LOW (button inp) && running g
    && negb (onDuration g <? timeSinceClose (millis_body inp) g)
  else is_LOW (button inp) || running g.
Proof. loop_by_cases inp g; reflexivity. Qed.

Lemma loop_binging cfg inp g :
  binging (fst (loop cfg inp g)) =
  if debouncing (millis_gate inp) g then binging g
  else if doorClosed g then
    is_LOW (button inp)
    && (if running g
        then (onDuration g <? timeSinceClose (millis_body inp) g) || binging g
        else binging g
             && negb (to_int (onDuration g + BING_DURATION_MS)
                      <? timeSinceClose (millis_body inp) g))
  else binging g.
Proof. loop_by_cases inp g; reflexivity. Qed.

Lemma loop_doorClosed cfg inp g :
  doorClosed (fst (loop cfg inp g)) =
  if debouncing (millis_gate inp) g then doorClosed g
  else is_LOW (button inp).
Proof. loop_by_cases inp g; reflexivity. Qed.

Lemma loop_wasClosed cfg inp g :
  wasClosed (fst (loop cfg inp g)) =
  if debouncing (millis_gate inp) g then wasClosed g else doorClosed g.
Proof. loop_by_cases inp g; reflexivity. Qed.

Lemma flags_ok_loop cfg inp g :
  flags_ok g -> flags_ok (fst (loop cfg inp g)).
Proof.
  unfold flags_ok.
  rewrite loop_running, loop_binging, loop_doorClosed.
  destruct (debouncing (millis_gate inp) g); [tauto|].
  destruct (doorClosed g), (is_LOW (button inp)), (running g), (binging g),
    (onDuration g <? timeSinceClose (millis_body inp) g),
    (to_int (onDuration g + BING_DURATION_MS)
     <? timeSinceClose (millis_body inp) g);
    simpl; intuition congruence.
Qed.

Lemma reachable_flags_ok cfg g : reachable cfg g -> flags_ok g.
Proof.
  induction 1 as [boot|g inp _ IH].
  - apply flags_ok_boot.
  - now apply flags_ok_loop.
Qed.

Lemma reachable_run cfg inps :
  forall g, reachable cfg g -> reachable cfg (fst (run cfg inps g)).
Proof.
  induction inps as [|inp rest IH]; intros g Hg; simpl; [assumption|].
  pose proof (reach_loop cfg g inp Hg) as H1.
  destruct (loop cfg inp g) as [g1 out1]. simpl in H1.
  specialize (IH g1 H1).
  destruct (run cfg rest g1) as [g2 out2]. exact IH.
Qed.

(** Without the timer pin nothing ever writes [onDuration]. *)
Lemma reachable_no_timer cfg g :
  has_timer cfg = false -> reachable cfg g -> onDuration g = ON_DURATION_MIN_MS.
Proof.
  intros Hcfg. induction 1 as [boot|g inp _ IH]; [reflexivity|].
  rewrite loop_onDuration, Hcfg. now destruct (recognizes_close inp g).
Qed.

(** ** The door opens *)

(** C3: on a pass that gets past the debounce test, finds the door recorded
    as closed by the previous pass and reads the switch as open, [running]
    and [binging] are cleared and the pass drives the light high and stops
    the tone ([noTone], then the speaker pin low), whatever the clock says
    and whatever the machine was doing. *)
Theorem door_open_stops_everything cfg inp g :
  debouncing (millis_gate inp) g = false ->
  doorClosed g = true ->
  button inp = HIGH ->
  running (fst (loop cfg inp g)) = false
  /\ binging (fst (loop cfg inp g)) = false
  /\ doorClosed (fst (loop cfg inp g)) = false
  /\ snd (loop cfg inp g)
     = digitalWrite LIGHT_PIN HIGH
         :: ifdef_speaker cfg
              [noTone SPEAKER_PIN; digitalWrite SPEAKER_PIN LOW].
Proof.
  intros Hgate Hclosed Hdoor.
  rewrite loop_running, loop_binging, loop_doorClosed, loop_cases.
  rewrite Hgate, Hclosed, Hdoor. simpl. repeat split; reflexivity.
Qed.

Lemma door_open_stops_everything_witness :
  (debouncing (millis_gate (at_time 700 HIGH 1023)) cooking_state = false
   /\ doorClosed cooking_state = true
   /\ running cooking_state = true)
  /\ running (fst (loop as_shipped (at_time 700 HIGH 1023) cooking_state))
     = false
  /\ binging (fst (loop as_shipped (at_time 700 HIGH 1023) cooking_state))
     = false
  /\ doorClosed (fst (loop as_shipped (at_time 700 HIGH 1023) cooking_state))
     = false
  /\ snd (loop as_shipped (at_time 700 HIGH 1023) cooking_state)
     = [digitalWrite LIGHT_PIN HIGH; noTone SPEAKER_PIN;
        digitalWrite SPEAKER_PIN LOW].
Proof.
  split.
  - repeat split; vm_compute; reflexivity.
  - apply (door_open_stops_everything as_shipped (at_time 700 HIGH 1023)
             cooking_state); vm_compute; reflexivity.
Defined.

(** ** Who writes [stateChangeTime] *)

(** C9: [stateChangeTime] is written by [setup] and by a pass that
    recognizes the door closing, and by nothing else: after any pass it is
    the clock value read at line 169 if the pass recognized a close and its
    old value otherwise.  The door-opening, timer-expiry and bing-finished
    passes are never close passes, so they leave it alone, and the debounce
    test measures time since the last close (or boot). *)
Theorem stateChangeTime_written_only_on_close cfg boot inp g :
  stateChangeTime (boot_state cfg boot) = boot
  /\ stateChangeTime (fst (loop cfg inp g))
     = (if recognizes_close inp g then millis_body inp
        else stateChangeTime g)
  /\ (recognizes_open inp g || timer_expires inp g || bing_finishes inp g)
     && recognizes_close inp g = false.
Proof.
  split; [reflexivity|]. split.
  - apply loop_stateChangeTime.
  - unfold recognizes_open, timer_expires, bing_finishes, recognizes_close.
    destruct (debouncing (millis_gate inp) g), (IS_CLOSED (state g)),
      (is_LOW (button inp)); simpl; try reflexivity;
      now rewrite andb_false_r.
Qed.

(** ** The cook duration on a close *)

(** C10: with the timer pin configured, a pass that recognizes the door
    closing with a raw analog reading in 0..1023 sets
    [onDuration = ON_DURATION_MIN_MS + (1024 - raw) * ON_DURATION_RANGE_SECS].
    That value lies in [2018, 20432], is never the 2000 ms minimum, is
    20432 for a raw reading of 0, and is strictly smaller for a larger raw
    reading. *)
Theorem close_duration_from_raw cfg inp g :
  has_timer cfg = true ->
  recognizes_close inp g = true ->
  0 <= analog inp <= 1023 ->
  let d := onDuration (fst (loop cfg inp g)) in
  d = ON_DURATION_MIN_MS + (1024 - analog inp) * ON_DURATION_RANGE_SECS
  /\ 2018 <= d <= 20432
  /\ d <> ON_DURATION_MIN_MS
  /\ (analog inp = 0 -> d = 20432)
  /\ (forall inp' g',
        recognizes_close inp' g' = true ->
        0 <= analog inp' <= 1023 ->
        analog inp < analog inp' ->
        onDuration (fst (loop cfg inp' g')) < d).
Proof.
  intros Hcfg Hclose Hraw d.
  assert (Hd : forall i s, recognizes_close i s = true ->
                 0 <= analog i <= 1023 ->
                 onDuration (fst (loop cfg i s))
                 = 2000 + (1024 - analog i) * 18).
  { intros i s Hc Hr. rewrite loop_onDuration, Hc, Hcfg.
    rewrite timer_reading_exact by assumption.
    now rewrite duration_of_reading_exact by lia. }
  subst d. rewrite (Hd inp g Hclose Hraw).
  unfold ON_DURATION_MIN_MS, ON_DURATION_RANGE_SECS.
  repeat split; try lia.
  intros inp' g' Hc' Hr' Hlt. rewrite (Hd inp' g' Hc' Hr'). lia.
Qed.

Lemma close_duration_from_raw_witness :
  (has_timer as_shipped = true
   /\ recognizes_close (at_time 200 LOW 512) door_open_state = true
   /\ 0 <= analog (at_time 200 LOW 512) <= 1023)
  /\ onDuration (fst (loop as_shipped (at_time 200 LOW 512) door_open_state))
     = ON_DURATION_MIN_MS + (1024 - 512) * ON_DURATION_RANGE_SECS.
Proof.
  split.
  - repeat split; first [simpl; lia | vm_compute; reflexivity].
  - apply (close_duration_from_raw as_shipped (at_time 200 LOW 512)
             door_open_state); first [simpl; lia | vm_compute; reflexivity].
Defined.

(** ** Never cooking and binging at once *)

(** C6: in every state reachable from the state [setup] leaves (door taken
    as closed, off, not binging) by any passes with any inputs, [running]
    and [binging] are not both true. *)
Theorem never_running_and_binging cfg g :
  reachable cfg g -> running g && binging g = false.
Proof. intros H. exact (proj1 (reachable_flags_ok cfg g H)). Qed.

Lemma never_running_and_binging_witness :
  reachable as_shipped binging_state
  /\ running binging_state && binging binging_state = false.
Proof.
  assert (H : reachable as_shipped binging_state).
  { unfold binging_state, cooking_state, tick.
    do 2 apply reach_loop.
    unfold door_open_state. apply reachable_run, reach_boot. }
  split; [exact H | exact (never_running_and_binging as_shipped _ H)].
Defined.

(** C1, as stated, fails on the sketch as shipped.  A close pass with a raw
    reading of 0 sets [onDuration] to 20432, not to the 2000 ms minimum; with
    a raw reading of 1023 it sets 2018, nowhere near minimum plus range; and
    when the sketch's own inverted [reading] is 1023 (raw 1) it sets 20414,
    which is 414 ms, not one unit, above minimum plus 18 s. *)
Lemma reading_zero_is_not_minimum :
  recognizes_close (at_time 200 LOW 0) door_open_state = true
  /\ onDuration (fst (tick as_shipped 200 LOW 0 door_open_state)) = 20432
  /\ 20432 <> ON_DURATION_MIN_MS
  /\ onDuration (fst (tick as_shipped 200 LOW 1023 door_open_state)) = 2018
  /\ timer_reading 1 = 1023
  /\ onDuration (fst (tick as_shipped 200 LOW 1 door_open_state)) = 20414
  /\ ~ Z.abs (20414 - (ON_DURATION_MIN_MS + 1000 * ON_DURATION_RANGE_SECS))
       <= 1
  /\ ~ Z.abs (2018 - (ON_DURATION_MIN_MS + 1000 * ON_DURATION_RANGE_SECS))
       <= 1.
Proof.
  repeat split; try (vm_compute; reflexivity); vm_compute; intros H;
    try discriminate H; now apply H.
Qed.

(** C1, amended: on a pass that recognizes the door closing, a build without
    the timer pin leaves [onDuration] at [ON_DURATION_MIN_MS] exactly; a
    build with it sets [onDuration] to [ON_DURATION_MIN_MS] plus
    [ON_DURATION_RANGE_SECS] ms for each unit of the sketch's inverted
    [reading], so that a [reading] of 1023 gives minimum plus 18 s plus
    414 ms (the 23 ms per second its comment mentions). *)
Theorem close_duration_by_design cfg inp g :
  reachable cfg g ->
  recognizes_close inp g = true ->
  0 <= analog inp <= 1023 ->
  let d := onDuration (fst (loop cfg inp g)) in
  d = (if has_timer cfg
       then ON_DURATION_MIN_MS
            + timer_reading (analog inp) * ON_DURATION_RANGE_SECS
       else ON_DURATION_MIN_MS)
  /\ (has_timer cfg = true -> timer_reading (analog inp) = 1023 ->
      d = ON_DURATION_MIN_MS + 1000 * ON_DURATION_RANGE_SECS + 414).
Proof.
  intros Hreach Hclose Hraw d.
  assert (Hd : d = if has_timer cfg
                   then ON_DURATION_MIN_MS
                        + timer_reading (analog inp) * ON_DURATION_RANGE_SECS
                   else ON_DURATION_MIN_MS).
  { subst d. rewrite loop_onDuration, Hclose.
    destruct (has_timer cfg) eqn:Hcfg.
    - apply duration_of_reading_exact.
      rewrite timer_reading_exact by assumption. lia.
    - now apply (reachable_no_timer cfg). }
  split; [exact Hd|].
  intros Hcfg Hr. rewrite Hd, Hcfg, Hr. reflexivity.
Qed.

Lemma close_duration_by_design_witness :
  (reachable without_timer open_before_wrap
   /\ recognizes_close (at_time 0 LOW 0) open_before_wrap = true
   /\ onDuration (fst (loop without_timer (at_time 0 LOW 0) open_before_wrap))
      = ON_DURATION_MIN_MS)
  /\ (reachable as_shipped door_open_state
      /\ recognizes_close (at_time 200 LOW 1) door_open_state = true
      /\ onDuration (fst (loop as_shipped (at_time 200 LOW 1) door_open_state))
         = ON_DURATION_MIN_MS + 1000 * ON_DURATION_RANGE_SECS + 414).
Proof.
  assert (H1 : reachable without_timer open_before_wrap)
    by apply reachable_run, reach_boot.
  assert (H2 : reachable as_shipped door_open_state)
    by apply reachable_run, reach_boot.
  split; (split; [assumption|split; [vm_compute; reflexivity|]]).
  - refine (proj1 (close_duration_by_design without_timer (at_time 0 LOW 0)
                     open_before_wrap H1 _ _));
      first [simpl; lia | vm_compute; reflexivity].
  - refine (proj2 (close_duration_by_design as_shipped (at_time 200 LOW 1)
                     door_open_state H2 _ _) _ _);
      first [simpl; lia | vm_compute; reflexivity].
Defined.

(** ** The debounce test *)

(** C2, as stated, fails: a pass that recognizes the door opening does not
    restart the debounce time.  The door is opened at 700 ms while cooking;
    one millisecond later a pass reads the switch as closed and starts a new
    cook cycle; and even with the switch still open that pass changes the
    state byte. *)
Lemma debounce_not_after_open :
  recognizes_open (at_time 700 HIGH 1023) cooking_state = true
  /\ to_ulong (701 - 700) < DEBOUNCE_TIME
  /\ snd (tick as_shipped 701 LOW 1023 reopened_state)
     = [digitalWrite LIGHT_PIN HIGH; tone SPEAKER_PIN TONE_FREQ_COOKING 2018]
  /\ running reopened_state = false
  /\ running (fst (tick as_shipped 701 LOW 1023 reopened_state)) = true
  /\ fst (tick as_shipped 701 HIGH 1023 reopened_state) <> reopened_state.
Proof.
  repeat split; try (vm_compute; reflexivity).
  vm_compute. discriminate.
Qed.

(** C2, amended: a pass whose clock reading is less than [DEBOUNCE_TIME]
    after [stateChangeTime] (in unsigned 32-bit arithmetic) changes nothing
    and calls nothing, whatever its door and analog inputs; in particular
    this holds for a pass less than [DEBOUNCE_TIME] after a pass that
    recognized the door closing, since that pass sets [stateChangeTime]. *)
Theorem debounce_gate_holds cfg inp2 g :
  (to_ulong (millis_gate inp2 - stateChangeTime g) < DEBOUNCE_TIME
   \/ exists now1 door1 raw1 g0,
        recognizes_close (at_time now1 door1 raw1) g0 = true
        /\ g = fst (tick cfg now1 door1 raw1 g0)
        /\ to_ulong (millis_gate inp2 - now1) < DEBOUNCE_TIME) ->
  loop cfg inp2 g = (g, []).
Proof.
  intros H. apply gate_freezes. unfold debouncing. apply Z.ltb_lt.
  destruct H as [H | (now1 & door1 & raw1 & g0 & Hclose & -> & H)];
    [exact H|].
  unfold tick. now rewrite loop_stateChangeTime, Hclose.
Qed.

Lemma debounce_gate_holds_witness :
  (recognizes_close (at_time 200 LOW 1023) door_open_state = true
   /\ to_ulong (millis_gate (at_time 299 HIGH 0) - 200) < DEBOUNCE_TIME)
  /\ loop as_shipped (at_time 299 HIGH 0) cooking_state = (cooking_state, []).
Proof.
  assert (Hc : recognizes_close (at_time 200 LOW 1023) door_open_state = true)
    by (vm_compute; reflexivity).
  assert (Ht : to_ulong (millis_gate (at_time 299 HIGH 0) - 200)
               < DEBOUNCE_TIME) by (vm_compute; reflexivity).
  split; [split; assumption|].
  apply (debounce_gate_holds as_shipped (at_time 299 HIGH 0) cooking_state).
  right. exists 200, LOW, 1023, door_open_state.
  split; [exact Hc|]. split; [reflexivity|exact Ht].
Defined.

(** ** A whole cook cycle *)

(** C5, as stated, fails on the sketch as shipped: with a potentiometer
    reading of 0 the close pass queues the cooking tone for 20432 ms, not
    2000 ms, and the pass 2001 ms later calls nothing and leaves the timer
    running.  The same happens at the other end of the scale (raw 1023),
    where the tone is queued for 2018 ms. *)
Lemma reading_zero_cycle_is_long :
  let r0 := tick as_shipped 200 LOW 0 door_open_state in
  let r1 := tick as_shipped (200 + 2001) LOW 0 (fst r0) in
  let q0 := tick as_shipped 200 LOW 1023 door_open_state in
  let q1 := tick as_shipped (200 + 2001) LOW 1023 (fst q0) in
  recognizes_close (at_time 200 LOW 0) door_open_state = true
  /\ snd r0
     = [digitalWrite LIGHT_PIN HIGH; tone SPEAKER_PIN TONE_FREQ_COOKING 20432]
  /\ snd r1 = []
  /\ running (fst r1) = true
  /\ binging (fst r1) = false
  /\ snd q0
     = [digitalWrite LIGHT_PIN HIGH; tone SPEAKER_PIN TONE_FREQ_COOKING 2018]
  /\ snd q1 = []
  /\ running (fst q1) = true.
Proof. repeat split; vm_compute; reflexivity. Qed.

(** C5, amended: in a build without the timer pin (so that the cook
    duration is the 2000 ms minimum), when the door closes at [t0] and stays
    closed, the close pass drives the light high and queues the cooking tone
    for 2000 ms; a pass 2001 ms later drives the light low and queues the
    350 ms bing, leaving [running] false and [binging] true; and a pass
    2352 ms after the close calls nothing and leaves [binging] false.  The
    clock may wrap in between. *)
Theorem cook_cycle cfg t0 raw0 raw1 raw2 g :
  has_timer cfg = false ->
  reachable cfg g ->
  recognizes_close (at_time t0 LOW raw0) g = true ->
  let r0 := tick cfg t0 LOW raw0 g in
  let r1 := tick cfg (to_ulong (t0 + 2001)) LOW raw1 (fst r0) in
  let r2 := tick cfg (to_ulong (t0 + 2352)) LOW raw2 (fst r1) in
  snd r0 = digitalWrite LIGHT_PIN HIGH
             :: ifdef_speaker cfg [tone SPEAKER_PIN TONE_FREQ_COOKING 2000]
  /\ running (fst r0) = true
  /\ snd r1 = digitalWrite LIGHT_PIN LOW
                :: ifdef_speaker cfg
                     [tone SPEAKER_PIN TONE_FREQ_BING BING_DURATION_MS]
  /\ running (fst r1) = false
  /\ binging (fst r1) = true
  /\ snd r2 = []
  /\ binging (fst r2) = false.
Proof.
  intros Hcfg Hreach Hclose r0 r1 r2.
  pose proof (reachable_no_timer cfg g Hcfg Hreach) as Hdur.
  pose proof (proj2 (reachable_flags_ok cfg g Hreach)) as Hquiet.
  apply recognizes_close_spec in Hclose as Hc. destruct Hc as (Hg & Hopen & _).
  simpl in Hg. specialize (Hquiet Hopen).
  (* after the close pass *)
  assert (T0 : stateChangeTime (fst r0) = t0)
    by (subst r0; unfold tick; now rewrite loop_stateChangeTime, Hclose).
  assert (D0 : onDuration (fst r0) = 2000)
    by (subst r0; unfold tick; now rewrite loop_onDuration, Hclose, Hcfg).
  assert (C0 : doorClosed (fst r0) = true)
    by (subst r0; unfold tick; rewrite loop_doorClosed; simpl; now rewrite Hg).
  assert (R0 : running (fst r0) = true)
    by (subst r0; unfold tick; rewrite loop_running; simpl;
        now rewrite Hg, Hopen).
  assert (B0 : binging (fst r0) = false)
    by (subst r0; unfold tick; rewrite loop_binging; simpl;
        now rewrite Hg, Hopen).
  assert (O0 : snd r0 = digitalWrite LIGHT_PIN HIGH
                 :: ifdef_speaker cfg
                      [tone SPEAKER_PIN TONE_FREQ_COOKING 2000]).
  { subst r0; unfold tick; rewrite loop_output; simpl.
    now rewrite Hg, Hopen, Hcfg, Hdur. }
  (* 2001 ms later *)
  assert (G1 : debouncing (to_ulong (t0 + 2001)) (fst r0) = false)
    by (rewrite (debouncing_after t0 2001) by (auto; now vm_compute);
        reflexivity).
  assert (E1 : timeSinceClose (to_ulong (t0 + 2001)) (fst r0) = 2001)
    by (apply timeSinceClose_after; auto; now vm_compute).
  assert (N1 : recognizes_close (at_time (to_ulong (t0 + 2001)) LOW raw1)
                 (fst r0) = false).
  { unfold recognizes_close. fold (doorClosed (fst r0)).
    now rewrite C0, andb_false_r. }
  assert (T1 : stateChangeTime (fst r1) = t0)
    by (subst r1; unfold tick; now rewrite loop_stateChangeTime, N1).
  assert (D1 : onDuration (fst r1) = 2000)
    by (subst r1; unfold tick; now rewrite loop_onDuration, N1).
  assert (C1 : doorClosed (fst r1) = true)
    by (subst r1; unfold tick; rewrite loop_doorClosed; simpl; now rewrite G1).
  assert (R1 : running (fst r1) = false)
    by (subst r1; unfold tick; rewrite loop_running; simpl;
        now rewrite G1, C0, R0, D0, E1).
  assert (B1 : binging (fst r1) = true)
    by (subst r1; unfold tick; rewrite loop_binging; simpl;
        now rewrite G1, C0, R0, D0, E1).
  assert (O1 : snd r1 = digitalWrite LIGHT_PIN LOW
                 :: ifdef_speaker cfg
                      [tone SPEAKER_PIN TONE_FREQ_BING BING_DURATION_MS])
    by (subst r1; unfold tick; rewrite loop_output; simpl;
        now rewrite G1, C0, R0, D0, E1).
  (* 2352 ms after the close *)
  assert (G2 : debouncing (to_ulong (t0 + 2352)) (fst r1) = false)
    by (rewrite (debouncing_after t0 2352) by (auto; now vm_compute);
        reflexivity).
  assert (E2 : timeSinceClose (to_ulong (t0 + 2352)) (fst r1) = 2352)
    by (apply timeSinceClose_after; auto; now vm_compute).
  assert (B2 : binging (fst r2) = false)
    by (subst r2; unfold tick; rewrite loop_binging; simpl;
        now rewrite G2, C1, R1, B1, D1, E2).
  assert (O2 : snd r2 = [])
    by (subst r2; unfold tick; rewrite loop_output; simpl;
        now rewrite G2, C1, R1).
  repeat split; assumption.
Qed.

Lemma cook_cycle_witness :
  let r0 := tick without_timer 0 LOW 0 open_before_wrap in
  let r1 := tick without_timer (to_ulong (0 + 2001)) LOW 0 (fst r0) in
  let r2 := tick without_timer (to_ulong (0 + 2352)) LOW 0 (fst r1) in
  (has_timer without_timer = false
   /\ reachable without_timer open_before_wrap
   /\ recognizes_close (at_time 0 LOW 0) open_before_wrap = true)
  /\ snd r0
     = [digitalWrite LIGHT_PIN HIGH; tone SPEAKER_PIN TONE_FREQ_COOKING 2000]
  /\ running (fst r0) = true
  /\ snd r1
     = [digitalWrite LIGHT_PIN LOW;
        tone SPEAKER_PIN TONE_FREQ_BING BING_DURATION_MS]
  /\ running (fst r1) = false
  /\ binging (fst r1) = true
  /\ snd r2 = []
  /\ binging (fst r2) = false.
Proof.
  assert (H : reachable without_timer open_before_wrap)
    by apply reachable_run, reach_boot.
  split; [split; [reflexivity | split; [exact H | vm_compute; reflexivity]]|].
  exact (cook_cycle without_timer 0 0 0 0 open_before_wrap
           eq_refl H eq_refl).
Defined.

(** ** Running the same pass twice *)

Lemma sample_door_range door st : 0 <= sample_door door st < 256.
Proof.
  unfold sample_door, SET_CLOSED, SET_OPEN.
  destruct (is_LOW door); apply to_byte_range.
Qed.

(** Sampling an unchanged door into a byte that already records it changes
    nothing. *)
Lemma sample_door_idem door st :
  0 <= st < 256 ->
  Z.testbit st 0 = is_LOW door -> Z.testbit st 2 = is_LOW door ->
  sample_door door st = st.
Proof.
  intros Hst H0 H2.
  apply byte_ext; [apply sample_door_range | assumption |].
  intros j Hj. rewrite sample_door_bit by lia.
  replace (j <? 8) with true by (symmetry; apply Z.ltb_lt; lia).
  destruct (Z.eqb_spec 0 j) as [<-|_]; [now rewrite H0|].
  destruct (Z.eqb_spec 2 j) as [<-|_]; [now rewrite H0, H2|reflexivity].
Qed.

Lemma loop_state_byte cfg inp g :
  debouncing (millis_gate inp) g = false ->
  0 <= state (fst (loop cfg inp g)) < 256.
Proof.
  intros Hg. unfold loop. rewrite Hg. cbv zeta.
  repeat match goal with
         | |- context [if ?b then _ else _] => destruct b
         end;
    simpl; first [apply to_byte_range | apply sample_door_range].
Qed.

(** A pass past the debounce test on which the door has not moved and no
    timer fires only re-samples the door. *)
Lemma loop_idle cfg inp g :
  debouncing (millis_gate inp) g = false ->
  doorClosed g = is_LOW (button inp) ->
  running g && (onDuration g <? timeSinceClose (millis_body inp) g) = false ->
  negb (running g) && binging g
  && (to_int (onDuration g + BING_DURATION_MS)
      <? timeSinceClose (millis_body inp) g) = false ->
  loop cfg inp g = (with_state g (sample_door (button inp) (state g)), []).
Proof.
  intros Hg Hd H1 H2. rewrite loop_cases, Hg. cbv zeta.
  rewrite Hd, H1, H2. now destruct (is_LOW (button inp)).
Qed.


Lemma with_state_same g : with_state g (state g) = g.
Proof. now destruct g. Qed.

(** After a pass that was not a close, the clock tests of the next pass
    read as before. *)
Lemma clock_tests_kept cfg inp g now :
  recognizes_close inp g = false ->
  debouncing now (fst (loop cfg inp g)) = debouncing now g
  /\ timeSinceClose now (fst (loop cfg inp g)) = timeSinceClose now g
  /\ onDuration (fst (loop cfg inp g)) = onDuration g.
Proof.
  intros H. unfold debouncing, timeSinceClose.
  now rewrite loop_stateChangeTime, loop_onDuration, H.
Qed.



(** ** The timer runs out *)

(** Within what an [int] holds, line 105 computes the elapsed time... *)
Lemma timeSinceClose_in_range now g :
  to_ulong (now - stateChangeTime g) < 2 ^ 15 ->
  timeSinceClose now g = to_ulong (now - stateChangeTime g).
Proof.
  intros H. unfold timeSinceClose. apply to_int_small.
  split; [|assumption]. unfold to_ulong.
  apply Z.mod_pos_bound. reflexivity.
Qed.

(** ... and beyond it the stored value goes negative. *)
Lemma timeSinceClose_negative now g :
  2 ^ 15 <= to_ulong (now - stateChangeTime g) < 2 ^ 16 ->
  timeSinceClose now g = to_ulong (now - stateChangeTime g) - 2 ^ 16 /\
  timeSinceClose now g < 0.
Proof.
  intros H. unfold timeSinceClose, to_int.
  set (e := to_ulong (now - stateChangeTime g)) in *.
  change (2 ^ 15) with 32768 in *. change (2 ^ 16) with 65536 in *.
  replace (e + 32768) with (e - 32768 + 1 * 65536) by lia.
  rewrite Z.mod_add, Z.mod_small by lia. lia.
Qed.

(** When the stored [timeSinceClose] exceeds [onDuration] on a pass past the
    debounce test with the door closed before and now and the timer running,
    the pass ends the cooking and starts the bing. *)
Lemma timer_expiry cfg inp g :
  timer_expires inp g = true ->
  running (fst (loop cfg inp g)) = false
  /\ binging (fst (loop cfg inp g)) = true
  /\ snd (loop cfg inp g)
     = digitalWrite LIGHT_PIN LOW
         :: ifdef_speaker cfg
              [tone SPEAKER_PIN TONE_FREQ_BING BING_DURATION_MS].
Proof.
  unfold timer_expires. fold (doorClosed g) (running g).
  rewrite !andb_true_iff, negb_true_iff.
  intros ((((Hg & Hc) & Hb) & Hr) & He).
  rewrite loop_running, loop_binging, loop_output.
  rewrite Hg, Hc, Hb, Hr, He. repeat split; reflexivity.
Qed.

(** So expiry is recognized whenever the elapsed time exceeds [onDuration]
    and is below 32768 ms. *)
Lemma timer_expiry_below_32768 cfg inp g :
  debouncing (millis_gate inp) g = false ->
  doorClosed g = true -> button inp = LOW -> running g = true ->
  onDuration g < to_ulong (millis_body inp - stateChangeTime g) < 2 ^ 15 ->
  running (fst (loop cfg inp g)) = false
  /\ binging (fst (loop cfg inp g)) = true
  /\ snd (loop cfg inp g)
     = digitalWrite LIGHT_PIN LOW
         :: ifdef_speaker cfg
              [tone SPEAKER_PIN TONE_FREQ_BING BING_DURATION_MS].
Proof.
  intros Hg Hc Hb Hr [Hlo Hhi]. apply timer_expiry.
  unfold timer_expires. fold (doorClosed g) (running g).
  rewrite Hg, Hc, Hb, Hr, timeSinceClose_in_range by assumption.
  simpl. now apply Z.ltb_lt.
Qed.

(** The bing ends without a call, and a pass that recognizes no transition
    calls nothing and keeps [running] and [binging]. *)
Lemma bing_finish cfg inp g :
  bing_finishes inp g = true ->
  running (fst (loop cfg inp g)) = false
  /\ binging (fst (loop cfg inp g)) = false
  /\ snd (loop cfg inp g) = [].
Proof.
  unfold bing_finishes. fold (doorClosed g) (running g) (binging g).
  rewrite !andb_true_iff, !negb_true_iff.
  intros (((((Hg & Hc) & Hb) & Hr) & Hbing) & He).
  rewrite loop_running, loop_binging, loop_output.
  rewrite Hg, Hc, Hb, Hr, Hbing, He. repeat split; reflexivity.
Qed.

Lemma no_transition_no_effect cfg inp g :
  recognized_transition inp g = false ->
  running (fst (loop cfg inp g)) = running g
  /\ binging (fst (loop cfg inp g)) = binging g
  /\ snd (loop cfg inp g) = [].
Proof.
  unfold recognized_transition, recognizes_close, recognizes_open,
    timer_expires, bing_finishes.
  fold (doorClosed g) (running g) (binging g).
  rewrite loop_running, loop_binging, loop_output.
  destruct (debouncing (millis_gate inp) g), (doorClosed g),
    (is_LOW (button inp)), (running g), (binging g),
    (onDuration g <? timeSinceClose (millis_body inp) g),
    (to_int (onDuration g + BING_DURATION_MS)
     <? timeSinceClose (millis_body inp) g);
    simpl; intros H; try discriminate H; repeat split; reflexivity.
Qed.

(** A remark on line 105 for a clock that jumps.  If no pass came for
    40000 ms after the close at 200 ms ([onDuration = 2018]), the pass that
    then comes, past the debounce test, door closed before and now, timer
    running, would call nothing and leave [running] true: the [int] holds
    -25536.  The section on polled passes below shows that a sketch whose
    [loop()] is called back to back never gets there. *)
Theorem expiry_missed_when_elapsed_exceeds_int :
  let inp := at_time 40200 LOW 1023 in
  (debouncing (millis_gate inp) cooking_state = false
   /\ doorClosed cooking_state = true
   /\ button inp = LOW
   /\ running cooking_state = true
   /\ onDuration cooking_state = 2018
   /\ to_ulong (millis_body inp - stateChangeTime cooking_state) = 40000)
  /\ snd (loop as_shipped inp cooking_state) = []
  /\ running (fst (loop as_shipped inp cooking_state)) = true
  /\ binging (fst (loop as_shipped inp cooking_state)) = false.
Proof. repeat split; vm_compute; reflexivity. Qed.

(** ** Elapsed-time arithmetic *)

(** The same remark on the stored value itself: for a jump of 40000 ms the
    [int] is -25536 and the comparison with [onDuration] is false. *)
Theorem timeSinceClose_is_truncated :
  to_ulong (40200 - stateChangeTime cooking_state) = 40000
  /\ debouncing 40200 cooking_state = (40000 <? DEBOUNCE_TIME)
  /\ timeSinceClose 40200 cooking_state = -25536
  /\ onDuration cooking_state = 2018
  /\ (onDuration cooking_state <? 40000) = true
  /\ (onDuration cooking_state <? timeSinceClose 40200 cooking_state) = false
  /\ timer_expires (at_time 40200 LOW 1023) cooking_state = false.
Proof. repeat split; vm_compute; reflexivity. Qed.

(** * Further properties of the macros, [setup] and [loop] *)

(** ** The flag macros *)

(** X1: each "negative" reader is the negation of its "positive" twin, for
    every value of the state byte: [IS_OPEN] of [IS_CLOSED], [IS_OFF] of
    [IS_ON], [WAS_OPEN] of [WAS_CLOSED], [IS_FINISHED_BINGING] of
    [IS_BINGING]. *)
Theorem readers_are_complementary st :
  IS_OPEN st = negb (IS_CLOSED st)
  /\ IS_OFF st = negb (IS_ON st)
  /\ WAS_OPEN st = negb (WAS_CLOSED st)
  /\ IS_FINISHED_BINGING st = negb (IS_BINGING st).
Proof. flags. repeat split; reflexivity. Qed.

(** X2: each writer macro sets or clears exactly its own flag and leaves the
    other three as they were; [REMEMBER_IF_CLOSED] copies the closed flag
    into the was-closed flag; and the result of each of the nine macros is
    a byte. *)
Theorem writers_touch_one_flag st :
  let '(c, o, w, b) := flags_of st in
  (flags_of (SET_CLOSED st) = (true, o, w, b)
   /\ flags_of (SET_OPEN st) = (false, o, w, b)
   /\ flags_of (SET_ON st) = (c, true, w, b)
   /\ flags_of (SET_OFF st) = (c, false, w, b)
   /\ flags_of (SET_WAS_CLOSED st) = (c, o, true, b)
   /\ flags_of (SET_WAS_OPEN st) = (c, o, false, b)
   /\ flags_of (SET_BINGING st) = (c, o, w, true)
   /\ flags_of (SET_FINISHED_BINGING st) = (c, o, w, false)
   /\ flags_of (REMEMBER_IF_CLOSED st) = (c, o, c, b))
  /\ (0 <= SET_CLOSED st < 256
      /\ 0 <= SET_OPEN st < 256
      /\ 0 <= SET_ON st < 256
      /\ 0 <= SET_OFF st < 256
      /\ 0 <= SET_WAS_CLOSED st < 256
      /\ 0 <= SET_WAS_OPEN st < 256
      /\ 0 <= SET_BINGING st < 256
      /\ 0 <= SET_FINISHED_BINGING st < 256
      /\ 0 <= REMEMBER_IF_CLOSED st < 256).
Proof.
  unfold flags_of.
  assert (Hrem : 0 <= REMEMBER_IF_CLOSED st < 256).
  { unfold REMEMBER_IF_CLOSED, SET_WAS_CLOSED, SET_WAS_OPEN.
    destruct (IS_CLOSED st); apply to_byte_range. }
  split.
  - autorewrite with flags. rewrite !REMEMBER_IF_CLOSED_bit by lia. simpl.
    rewrite !orb_true_r, !orb_false_r, !andb_true_r, !andb_false_r.
    repeat split; reflexivity.
  - unfold SET_CLOSED, SET_OPEN, SET_ON, SET_OFF, SET_WAS_CLOSED,
      SET_WAS_OPEN, SET_BINGING, SET_FINISHED_BINGING.
    repeat (split; [apply to_byte_range|]). exact Hrem.
Qed.

(** ** Invariants of the globals *)

Lemma below_16 s :
  0 <= s -> (forall j, 4 <= j -> Z.testbit s j = false) -> s < 16.
Proof.
  intros Hs Hhigh.
  assert (E : s = s mod 2 ^ 4).
  { apply Z.bits_inj'. intros n Hn.
    rewrite Z.testbit_mod_pow2 by lia.
    destruct (Z.ltb_spec n 4); [reflexivity|]. now apply Hhigh. }
  rewrite E. apply Z.mod_pos_bound. reflexivity.
Qed.

Lemma high_bits_clear s j :
  0 <= s < 16 -> 4 <= j -> Z.testbit s j = false.
Proof.
  intros Hs Hj. rewrite <- (Z.mod_small s (2 ^ 4)) by exact Hs.
  apply Z.mod_pow2_bits_high. lia.
Qed.

(** No pass sets a bit above the four flags. *)
Lemma loop_high_bits cfg inp g j :
  4 <= j -> Z.testbit (state g) j = false ->
  Z.testbit (state (fst (loop cfg inp g))) j = false.
Proof.
  intros Hj Hg. unfold loop.
  assert (H0 : (0 =? j) = false) by (apply Z.eqb_neq; lia).
  assert (H1 : (1 =? j) = false) by (apply Z.eqb_neq; lia).
  assert (H2 : (2 =? j) = false) by (apply Z.eqb_neq; lia).
  assert (H3 : (3 =? j) = false) by (apply Z.eqb_neq; lia).
  repeat match goal with
         | |- context [if ?b then _ else _] => destruct b
         end;
    simpl; try assumption;
    autorewrite with flags; rewrite ?H0, ?H1, ?H2, ?H3, ?Hg;
    simpl; now rewrite ?andb_false_r.
Qed.

(** X3: in every state the sketch can reach the state byte uses only its
    four flag bits: it is a number from 0 to 15. *)
Theorem state_byte_below_16 cfg g :
  reachable cfg g -> 0 <= state g < 16.
Proof.
  induction 1 as [boot|g inp _ IH].
  - replace (state (boot_state cfg boot)) with 1 by reflexivity. lia.
  - split.
    + destruct (debouncing (millis_gate inp) g) eqn:Hgate.
      * rewrite gate_freezes by assumption. apply IH.
      * now apply loop_state_byte.
    + apply below_16.
      * destruct (debouncing (millis_gate inp) g) eqn:Hgate.
        -- rewrite gate_freezes by assumption. apply IH.
        -- now apply loop_state_byte.
      * intros j Hj. apply loop_high_bits; [assumption|].
        now apply high_bits_clear.
Qed.

Lemma state_byte_below_16_witness :
  reachable as_shipped binging_state /\ 0 <= state binging_state < 16.
Proof.
  assert (H : reachable as_shipped binging_state).
  { unfold binging_state, cooking_state, tick.
    do 2 apply reach_loop.
    unfold door_open_state. apply reachable_run, reach_boot. }
  split; [exact H | exact (state_byte_below_16 as_shipped _ H)].
Defined.

(** X11: in every reachable state in which the door is recorded open the
    machine is idle: neither [running] nor [binging]. *)
Theorem open_door_means_idle cfg g :
  reachable cfg g ->
  doorClosed g = false -> running g = false /\ binging g = false.
Proof.
  induction 1 as [boot|g inp _ IH].
  - discriminate.
  - rewrite loop_doorClosed, loop_running, loop_binging.
    destruct (debouncing (millis_gate inp) g); [exact IH|].
    intros Hhigh. rewrite Hhigh.
    destruct (doorClosed g); [now split|].
    destruct (IH eq_refl) as [-> ->]. now split.
Qed.

Lemma open_door_means_idle_witness :
  (reachable as_shipped reopened_state /\ doorClosed reopened_state = false)
  /\ running reopened_state = false /\ binging reopened_state = false.
Proof.
  assert (H : reachable as_shipped reopened_state).
  { unfold reopened_state, cooking_state, tick.
    do 2 apply reach_loop.
    unfold door_open_state. apply reachable_run, reach_boot. }
  assert (Hopen : doorClosed reopened_state = false)
    by (vm_compute; reflexivity).
  split; [split; assumption|].
  exact (open_door_means_idle as_shipped _ H Hopen).
Defined.

Lemma reachable_adc_reachable cfg g : reachable_adc cfg g -> reachable cfg g.
Proof.
  induction 1 as [boot|g inp _ IH _]; [apply reach_boot|now apply reach_loop].
Qed.

Lemma duration_bounds_aux cfg g :
  reachable_adc cfg g ->
  ON_DURATION_MIN_MS <= onDuration g <= 20432
  /\ to_int (onDuration g + BING_DURATION_MS)
     = onDuration g + BING_DURATION_MS.
Proof.
  intros H.
  assert (Hb : ON_DURATION_MIN_MS <= onDuration g <= 20432).
  { induction H as [boot|g inp _ IH Hraw].
    - simpl. unfold ON_DURATION_MIN_MS. lia.
    - rewrite loop_onDuration.
      destruct (recognizes_close inp g); [|exact IH].
      destruct (has_timer cfg); [|exact IH].
      rewrite timer_reading_exact by assumption.
      rewrite duration_of_reading_exact by lia.
      unfold ON_DURATION_MIN_MS, ON_DURATION_RANGE_SECS. lia. }
  split; [exact Hb|].
  apply to_int_small. unfold ON_DURATION_MIN_MS, BING_DURATION_MS in *.
  change (2 ^ 15) with 32768. lia.
Qed.

(** X7: as long as every analog reading is a 10-bit value, [onDuration]
    stays between 2000 and 20432 in every reachable state of any build, so
    the [int] sum [onDuration + BING_DURATION_MS] of line 136 never
    overflows. *)
Theorem duration_bounds cfg g :
  reachable_adc cfg g ->
  ON_DURATION_MIN_MS <= onDuration g <= 20432
  /\ to_int (onDuration g + BING_DURATION_MS)
     = onDuration g + BING_DURATION_MS.
Proof. exact (duration_bounds_aux cfg g). Qed.

Lemma duration_bounds_witness :
  reachable_adc as_shipped
    (fst (loop as_shipped (at_time 200 LOW 0) door_open_state))
  /\ onDuration (fst (loop as_shipped (at_time 200 LOW 0) door_open_state))
     = 20432
  /\ ON_DURATION_MIN_MS
     <= onDuration (fst (loop as_shipped (at_time 200 LOW 0) door_open_state))
     <= 20432.
Proof.
  assert (H : reachable_adc as_shipped
                (fst (loop as_shipped (at_time 200 LOW 0) door_open_state))).
  { apply adc_loop; [|simpl; lia].
    change door_open_state
      with (fst (loop as_shipped (at_time 100 HIGH 1023)
                   (boot_state as_shipped 0))).
    apply adc_loop; [apply adc_boot|simpl; lia]. }
  split; [exact H|]. split; [vm_compute; reflexivity|].
  exact (proj1 (duration_bounds as_shipped _ H)).
Defined.

(** X6: in a build without the timer pin [onDuration] is the 2000 ms
    minimum in every reachable state, and every pass that recognizes the
    door closing queues the cooking tone for exactly 2000 ms. *)
Theorem duration_fixed_without_timer cfg inp g :
  has_timer cfg = false ->
  reachable cfg g ->
  onDuration g = ON_DURATION_MIN_MS
  /\ onDuration (fst (loop cfg inp g)) = ON_DURATION_MIN_MS
  /\ (recognizes_close inp g = true ->
      snd (loop cfg inp g)
      = digitalWrite LIGHT_PIN HIGH
          :: ifdef_speaker cfg [tone SPEAKER_PIN TONE_FREQ_COOKING 2000]).
Proof.
  intros Hcfg Hreach.
  pose proof (reachable_no_timer cfg g Hcfg Hreach) as Hd.
  split; [exact Hd|]. split.
  - apply (reachable_no_timer cfg); [assumption|now apply reach_loop].
  - intros Hclose. rewrite loop_close by assumption. simpl.
    now rewrite Hcfg, Hd.
Qed.

Lemma duration_fixed_without_timer_witness :
  (has_timer without_timer = false
   /\ reachable without_timer open_before_wrap)
  /\ onDuration (fst (loop without_timer (at_time 0 LOW 517) open_before_wrap))
     = ON_DURATION_MIN_MS
  /\ snd (loop without_timer (at_time 0 LOW 517) open_before_wrap)
     = [digitalWrite LIGHT_PIN HIGH; tone SPEAKER_PIN TONE_FREQ_COOKING 2000].
Proof.
  assert (H : reachable without_timer open_before_wrap)
    by apply reachable_run, reach_boot.
  split; [split; [reflexivity|exact H]|].
  destruct (duration_fixed_without_timer without_timer (at_time 0 LOW 517)
              open_before_wrap eq_refl H) as (_ & Hd & Hout).
  split; [exact Hd|]. apply Hout. vm_compute. reflexivity.
Defined.

(** ** Single passes *)

(** X8: a pass that recognizes the door closing, from any state, records
    the door as closed and not closed before, sets [running], leaves
    [binging] as it was, stores the clock value of line 169 in
    [stateChangeTime], drives the light high and (with a speaker) queues the
    80 Hz tone for the [onDuration] it has just stored. *)
Theorem close_starts_cooking cfg inp g :
  recognizes_close inp g = true ->
  let g' := fst (loop cfg inp g) in
  doorClosed g' = true
  /\ wasClosed g' = false
  /\ running g' = true
  /\ binging g' = binging g
  /\ stateChangeTime g' = millis_body inp
  /\ snd (loop cfg inp g)
     = digitalWrite LIGHT_PIN HIGH
         :: ifdef_speaker cfg
              [tone SPEAKER_PIN TONE_FREQ_COOKING (to_ulong (onDuration g'))].
Proof.
  intros Hclose g'. subst g'.
  apply recognizes_close_spec in Hclose as Hc. destruct Hc as (Hg & Hopen & Hb).
  rewrite loop_doorClosed, loop_wasClosed, loop_running, loop_binging,
    loop_stateChangeTime, loop_output, loop_onDuration.
  rewrite Hclose, Hg, Hopen, Hb. repeat split; reflexivity.
Qed.

Lemma close_starts_cooking_witness :
  recognizes_close (at_time 701 LOW 300) reopened_state = true
  /\ running (fst (loop as_shipped (at_time 701 LOW 300) reopened_state))
     = true
  /\ snd (loop as_shipped (at_time 701 LOW 300) reopened_state)
     = [digitalWrite LIGHT_PIN HIGH; tone SPEAKER_PIN TONE_FREQ_COOKING 15032].
Proof.
  assert (H : recognizes_close (at_time 701 LOW 300) reopened_state = true)
    by (vm_compute; reflexivity).
  split; [exact H|].
  destruct (close_starts_cooking as_shipped (at_time 701 LOW 300)
              reopened_state H) as (_ & _ & Hr & _ & _ & Hout).
  split; [exact Hr|]. rewrite Hout. vm_compute. reflexivity.
Defined.

(** X5: a pass that gets past the debounce test records the switch as it
    reads it now ([doorClosed] iff the pin is LOW) and remembers in
    [wasClosed] what [doorClosed] was before the pass. *)
Theorem door_memory cfg inp g :
  debouncing (millis_gate inp) g = false ->
  doorClosed (fst (loop cfg inp g)) = is_LOW (button inp)
  /\ wasClosed (fst (loop cfg inp g)) = doorClosed g.
Proof.
  intros Hg. now rewrite loop_doorClosed, loop_wasClosed, Hg.
Qed.

Lemma door_memory_witness :
  debouncing (millis_gate (at_time 700 HIGH 1023)) cooking_state = false
  /\ doorClosed cooking_state = true
  /\ doorClosed (fst (loop as_shipped (at_time 700 HIGH 1023) cooking_state))
     = false
  /\ wasClosed (fst (loop as_shipped (at_time 700 HIGH 1023) cooking_state))
     = true.
Proof.
  assert (H : debouncing (millis_gate (at_time 700 HIGH 1023)) cooking_state
              = false) by (vm_compute; reflexivity).
  split; [exact H|]. split; [vm_compute; reflexivity|].
  exact (door_memory as_shipped (at_time 700 HIGH 1023) cooking_state H).
Defined.

(** X14: a pass that recognizes none of the four transitions makes no
    hardware call and leaves [running], [binging], [stateChangeTime] and
    [onDuration] as they were. *)
Theorem quiet_pass cfg inp g :
  recognized_transition inp g = false ->
  snd (loop cfg inp g) = []
  /\ running (fst (loop cfg inp g)) = running g
  /\ binging (fst (loop cfg inp g)) = binging g
  /\ stateChangeTime (fst (loop cfg inp g)) = stateChangeTime g
  /\ onDuration (fst (loop cfg inp g)) = onDuration g.
Proof.
  intros H.
  assert (Hclose : recognizes_close inp g = false).
  { unfold recognized_transition in H.
    now destruct (recognizes_close inp g). }
  rewrite loop_stateChangeTime, loop_onDuration, Hclose.
  revert H.
  unfold recognized_transition, recognizes_close, recognizes_open,
    timer_expires, bing_finishes.
  fold (doorClosed g) (running g) (binging g).
  rewrite loop_running, loop_binging, loop_output.
  destruct (debouncing (millis_gate inp) g), (doorClosed g),
    (is_LOW (button inp)), (running g), (binging g),
    (onDuration g <? timeSinceClose (millis_body inp) g),
    (to_int (onDuration g + BING_DURATION_MS)
     <? timeSinceClose (millis_body inp) g);
    simpl; intros H; try discriminate H; repeat split; reflexivity.
Qed.

Lemma quiet_pass_witness :
  recognized_transition (at_time 1500 LOW 0) cooking_state = false
  /\ snd (loop as_shipped (at_time 1500 LOW 0) cooking_state) = []
  /\ running (fst (loop as_shipped (at_time 1500 LOW 0) cooking_state))
     = running cooking_state.
Proof.
  assert (H : recognized_transition (at_time 1500 LOW 0) cooking_state
              = false) by (vm_compute; reflexivity).
  split; [exact H|].
  destruct (quiet_pass as_shipped (at_time 1500 LOW 0) cooking_state H)
    as (Hout & Hr & _).
  split; assumption.
Defined.

(** X16: the pass that finds the bing over only clears [binging]: it makes
    no hardware call (the tone is left to run out by itself) and leaves
    [running] false, the door flags closed, and [stateChangeTime] and
    [onDuration] as they were. *)
Theorem bing_ends_silently cfg inp g :
  bing_finishes inp g = true ->
  snd (loop cfg inp g) = []
  /\ binging (fst (loop cfg inp g)) = false
  /\ running (fst (loop cfg inp g)) = false
  /\ doorClosed (fst (loop cfg inp g)) = true
  /\ stateChangeTime (fst (loop cfg inp g)) = stateChangeTime g
  /\ onDuration (fst (loop cfg inp g)) = onDuration g.
Proof.
  intros H.
  assert (Hclose : recognizes_close inp g = false).
  { unfold bing_finishes in H. unfold recognizes_close.
    destruct (debouncing (millis_gate inp) g), (IS_CLOSED (state g));
      simpl in *; congruence. }
  rewrite loop_stateChangeTime, loop_onDuration, Hclose.
  revert H. unfold bing_finishes. fold (doorClosed g) (running g) (binging g).
  rewrite !andb_true_iff, !negb_true_iff.
  intros (((((Hg & Hc) & Hb) & Hr) & Hbing) & He).
  rewrite loop_running, loop_binging, loop_output, loop_doorClosed.
  rewrite Hg, Hc, Hb, Hr, Hbing, He. repeat split; reflexivity.
Qed.

Lemma bing_ends_silently_witness :
  bing_finishes (at_time 2600 LOW 1023) binging_state = true
  /\ binging binging_state = true
  /\ snd (loop as_shipped (at_time 2600 LOW 1023) binging_state) = []
  /\ binging (fst (loop as_shipped (at_time 2600 LOW 1023) binging_state))
     = false.
Proof.
  assert (H : bing_finishes (at_time 2600 LOW 1023) binging_state = true)
    by (vm_compute; reflexivity).
  split; [exact H|]. split; [vm_compute; reflexivity|].
  destruct (bing_ends_silently as_shipped (at_time 2600 LOW 1023)
              binging_state H) as (Hout & Hb & _).
  split; assumption.
Defined.

(** ** The clock *)

Lemma to_int_le e : 0 <= e -> to_int e <= e.
Proof.
  intros He. unfold to_int.
  change (2 ^ 15) with 32768. change (2 ^ 16) with 65536.
  pose proof (Z.mod_le (e + 32768) 65536 ltac:(lia) ltac:(lia)). lia.
Qed.

(** X12: both clock tests see only how far the 32-bit clock has advanced
    since [stateChangeTime], even when it has wrapped in between: after [d]
    ms the pass is skipped iff [d < DEBOUNCE_TIME], and [timeSinceClose] is
    [d] cut to an [int], which is [d] itself while [d < 32768]. *)
Theorem clock_wrap_is_harmless g d :
  0 <= d < 2 ^ 32 ->
  let now := to_ulong (stateChangeTime g + d) in
  debouncing now g = (d <? DEBOUNCE_TIME)
  /\ timeSinceClose now g = to_int d
  /\ (d < 2 ^ 15 -> timeSinceClose now g = d).
Proof.
  intros Hd now. subst now. split; [now apply debouncing_after|].
  assert (E : timeSinceClose (to_ulong (stateChangeTime g + d)) g = to_int d).
  { unfold timeSinceClose. now rewrite to_ulong_elapsed. }
  split; [exact E|].
  intros Hsmall. rewrite E. apply to_int_small. lia.
Qed.

Lemma clock_wrap_is_harmless_witness :
  0 <= 500 < 2 ^ 32
  /\ to_ulong (stateChangeTime (boot_state as_shipped 4294967000) + 500) = 204
  /\ debouncing 204 (boot_state as_shipped 4294967000) = false
  /\ timeSinceClose 204 (boot_state as_shipped 4294967000) = 500.
Proof.
  assert (H : 0 <= 500 < 2 ^ 32) by (change (2 ^ 32) with 4294967296; lia).
  split; [exact H|]. split; [vm_compute; reflexivity|].
  destruct (clock_wrap_is_harmless (boot_state as_shipped 4294967000) 500 H)
    as (Hg & _ & Ht).
  split; [exact Hg|]. apply Ht. change (2 ^ 15) with 32768. lia.
Defined.

Lemma timer_expires_elapsed inp g :
  timer_expires inp g = true ->
  running g = true
  /\ onDuration g < to_ulong (millis_body inp - stateChangeTime g).
Proof.
  unfold timer_expires. fold (running g). rewrite !andb_true_iff.
  intros ((_ & Hr) & He). split; [exact Hr|].
  apply Z.ltb_lt in He. unfold timeSinceClose in He.
  assert (H0 : 0 <= to_ulong (millis_body inp - stateChangeTime g))
    by (unfold to_ulong; apply Z.mod_pos_bound; reflexivity).
  pose proof (to_int_le _ H0). lia.
Qed.

(** X13: [loop] never ends the cooking early.  Whenever a pass drives the
    light pin low, or finds the timer running and the switch closed and
    leaves [running] cleared, the timer was running before the pass and
    more than [onDuration] ms have passed on the 32-bit clock since the
    close was recorded. *)
Theorem bing_never_early cfg inp g :
  In (digitalWrite LIGHT_PIN LOW) (snd (loop cfg inp g))
  \/ (running g = true /\ button inp = LOW
      /\ running (fst (loop cfg inp g)) = false) ->
  running g = true
  /\ onDuration g < to_ulong (millis_body inp - stateChangeTime g).
Proof.
  intros H. apply timer_expires_elapsed.
  unfold timer_expires. fold (doorClosed g) (running g).
  destruct H as [H | (Hr & Hb & H)].
  - rewrite loop_output in H. unfold ifdef_speaker in H.
    destruct (debouncing (millis_gate inp) g); [destruct H|].
    destruct (doorClosed g), (is_LOW (button inp)), (has_speaker cfg);
      simpl in H;
      try (destruct (running g) eqn:Hr; simpl in H;
           [destruct (onDuration g <? timeSinceClose (millis_body inp) g)
            |]; simpl in H);
      repeat match goal with
             | H : _ \/ _ |- _ => destruct H
             | H : False |- _ => destruct H
             end;
      try discriminate; reflexivity.
  - rewrite loop_running in H. rewrite Hr, Hb in *. simpl in *.
    destruct (debouncing (millis_gate inp) g); [discriminate H|].
    destruct (doorClosed g); [|discriminate H]. simpl in *.
    now apply negb_false_iff in H.
Qed.

Lemma bing_never_early_witness :
  In (digitalWrite LIGHT_PIN LOW)
     (snd (loop as_shipped (at_time 2219 LOW 1023) cooking_state))
  /\ onDuration cooking_state = 2018
  /\ onDuration cooking_state
     < to_ulong (millis_body (at_time 2219 LOW 1023)
                 - stateChangeTime cooking_state).
Proof.
  assert (H : In (digitalWrite LIGHT_PIN LOW)
                (snd (loop as_shipped (at_time 2219 LOW 1023) cooking_state)))
    by (vm_compute; left; reflexivity).
  split; [exact H|]. split; [vm_compute; reflexivity|].
  exact (proj2 (bing_never_early as_shipped (at_time 2219 LOW 1023)
                  cooking_state (or_introl H))).
Defined.

(** X17: with 10-bit analog readings, [loop] clears [binging] with the
    switch still closed only when more than
    [onDuration + BING_DURATION_MS] ms have passed on the 32-bit clock since
    the close was recorded: if [binging] is set before a pass that reads
    the switch closed and clear after it, that much time has passed. *)
Theorem bing_not_cut_short cfg inp g :
  reachable_adc cfg g ->
  binging g = true ->
  button inp = LOW ->
  binging (fst (loop cfg inp g)) = false ->
  onDuration g + BING_DURATION_MS
  < to_ulong (millis_body inp - stateChangeTime g).
Proof.
  intros Hreach Hbing Hb H.
  destruct (duration_bounds_aux cfg g Hreach) as [_ Hsum].
  rewrite loop_binging, Hbing, Hb in H. simpl in H.
  destruct (debouncing (millis_gate inp) g); [discriminate H|].
  destruct (doorClosed g); [|discriminate H].
  destruct (running g); [now rewrite orb_true_r in H|].
  simpl in H. apply negb_false_iff, Z.ltb_lt in H.
  rewrite Hsum in H. unfold timeSinceClose in H.
  assert (H0 : 0 <= to_ulong (millis_body inp - stateChangeTime g))
    by (unfold to_ulong; apply Z.mod_pos_bound; reflexivity).
  pose proof (to_int_le _ H0). lia.
Qed.

Lemma binging_state_adc : reachable_adc as_shipped binging_state.
Proof.
  unfold binging_state, cooking_state, tick.
  do 2 (apply adc_loop; [|simpl; lia]).
  change door_open_state
    with (fst (loop as_shipped (at_time 100 HIGH 1023)
                 (boot_state as_shipped 0))).
  apply adc_loop; [apply adc_boot|simpl; lia].
Qed.

Lemma bing_not_cut_short_witness :
  (reachable_adc as_shipped binging_state
   /\ binging binging_state = true
   /\ binging (fst (loop as_shipped (at_time 2600 LOW 1023) binging_state))
      = false)
  /\ onDuration binging_state + BING_DURATION_MS
     < to_ulong (millis_body (at_time 2600 LOW 1023)
                 - stateChangeTime binging_state).
Proof.
  assert (Hb : binging binging_state = true) by (vm_compute; reflexivity).
  assert (H : binging (fst (loop as_shipped (at_time 2600 LOW 1023)
                              binging_state)) = false)
    by (vm_compute; reflexivity).
  split; [split; [exact binging_state_adc|split; assumption]|].
  exact (bing_not_cut_short as_shipped (at_time 2600 LOW 1023) binging_state
           binging_state_adc Hb eq_refl H).
Defined.

(** ** After [setup] *)

(** X4: [setup] assumes a closed door.  The first pass that comes at least
    [DEBOUNCE_TIME] after boot corrects this if the switch reads open: it
    drives the light high (and silences the speaker) and records the door
    as open.  If the switch reads closed it makes no call.  Either way the
    machine stays off and not binging. *)
Theorem first_pass_after_boot cfg boot inp :
  DEBOUNCE_TIME <= to_ulong (millis_gate inp - boot) ->
  let g0 := boot_state cfg boot in
  flags_of (state g0) = (true, false, false, false)
  /\ snd (loop cfg inp g0)
     = (if is_LOW (button inp) then []
        else digitalWrite LIGHT_PIN HIGH
               :: ifdef_speaker cfg
                    [noTone SPEAKER_PIN; digitalWrite SPEAKER_PIN LOW])
  /\ doorClosed (fst (loop cfg inp g0)) = is_LOW (button inp)
  /\ running (fst (loop cfg inp g0)) = false
  /\ binging (fst (loop cfg inp g0)) = false.
Proof.
  intros Hlate g0.
  assert (Hg : debouncing (millis_gate inp) g0 = false)
    by (unfold debouncing; apply Z.ltb_ge; exact Hlate).
  assert (Hc : doorClosed g0 = true) by reflexivity.
  assert (Hr : running g0 = false) by reflexivity.
  assert (Hb : binging g0 = false) by reflexivity.
  split; [reflexivity|].
  rewrite loop_output, loop_doorClosed, loop_running, loop_binging.
  rewrite Hg, Hc, Hr, Hb.
  destruct (is_LOW (button inp)); repeat split; reflexivity.
Qed.

Lemma first_pass_after_boot_witness :
  DEBOUNCE_TIME <= to_ulong (millis_gate (at_time 100 HIGH 1023) - 0)
  /\ snd (loop as_shipped (at_time 100 HIGH 1023) (boot_state as_shipped 0))
     = [digitalWrite LIGHT_PIN HIGH; noTone SPEAKER_PIN;
        digitalWrite SPEAKER_PIN LOW]
  /\ doorClosed
       (fst (loop as_shipped (at_time 100 HIGH 1023) (boot_state as_shipped 0)))
     = false.
Proof.
  assert (H : DEBOUNCE_TIME
              <= to_ulong (millis_gate (at_time 100 HIGH 1023) - 0))
    by (vm_compute; discriminate).
  split; [exact H|].
  destruct (first_pass_after_boot as_shipped 0 (at_time 100 HIGH 1023) H)
    as (_ & Hout & Hd & _).
  split; [exact Hout|exact Hd].
Defined.

(** ** What the passes call *)

Lemma loop_calls_ok cfg inp g :
  forallb (pass_call_ok cfg) (snd (loop cfg inp g)) = true.
Proof.
  rewrite loop_output. unfold ifdef_speaker.
  destruct (debouncing (millis_gate inp) g), (doorClosed g),
    (is_LOW (button inp)), (has_speaker cfg) eqn:Hs; simpl;
    try reflexivity;
    try (destruct (running g && _); simpl; rewrite ?Hs; reflexivity);
    rewrite ?Hs; reflexivity.
Qed.

(** X9: whatever it reads, a run of passes only ever writes the light pin,
    and, in a build with a speaker, calls [noTone], writes the speaker pin
    low, or queues a tone at 80 Hz or at 2500 Hz for 350 ms.  It never calls
    [pinMode], never writes the button or timer pin, and in a build without
    a speaker never touches the speaker. *)
Theorem passes_call_only_light_and_speaker cfg inps :
  forall g, forallb (pass_call_ok cfg) (snd (run cfg inps g)) = true.
Proof.
  induction inps as [|inp rest IH]; intros g; [reflexivity|].
  simpl. pose proof (loop_calls_ok cfg inp g) as H1.
  destruct (loop cfg inp g) as [g1 out1]. specialize (IH g1).
  destruct (run cfg rest g1) as [g2 out2]. simpl in *.
  rewrite forallb_app. now rewrite H1, IH.
Qed.

(** ** The light *)

Lemma light_after_app level a b :
  light_after level (a ++ b) = light_after (light_after level a) b.
Proof.
  revert level. induction a as [|c a IH]; intros level; [reflexivity|].
  destruct c as [p m|p l|p|p f d]; simpl; try apply IH.
  destruct p; apply IH.
Qed.

Lemma light_step cfg inp g level :
  level = light_for g ->
  light_after level (snd (loop cfg inp g)) = light_for (fst (loop cfg inp g)).
Proof.
  intros ->. unfold light_for.
  rewrite loop_output, loop_doorClosed, loop_running. unfold ifdef_speaker.
  destruct (debouncing (millis_gate inp) g), (doorClosed g),
    (is_LOW (button inp)), (running g),
    (onDuration g <? timeSinceClose (millis_body inp) g),
    (has_speaker cfg); reflexivity.
Qed.

Lemma light_run cfg inps :
  forall g level,
    level = light_for g ->
    light_after level (snd (run cfg inps g))
    = light_for (fst (run cfg inps g)).
Proof.
  induction inps as [|inp rest IH]; intros g level Hl; [exact Hl|].
  simpl. pose proof (light_step cfg inp g level Hl) as H1.
  destruct (loop cfg inp g) as [g1 out1]. simpl in H1.
  specialize (IH g1 (light_after level out1) H1).
  destruct (run cfg rest g1) as [g2 out2]. simpl in *.
  now rewrite light_after_app.
Qed.

(** X10: after [setup] and any passes, whatever they read, the light pin is
    high exactly when the door is recorded open or the timer is running,
    whatever level the pin had before [setup]. *)
Theorem light_follows_door_and_timer cfg boot inps level0 :
  let g := fst (run cfg inps (boot_state cfg boot)) in
  light_after level0
    (snd (setup cfg boot static_init)
     ++ snd (run cfg inps (boot_state cfg boot)))
  = if negb (doorClosed g) || running g then HIGH else LOW.
Proof.
  intros g. subst g. rewrite light_after_app.
  apply light_run.
  unfold setup, ifdef_timer, ifdef_speaker.
  destruct (has_timer cfg), (has_speaker cfg); reflexivity.
Qed.

(** ** A cook cycle with the timer *)

(** A pass with the door closed before and now, [e] ms after the recorded
    close, with [e] past the debounce time and within an [int]. *)
Lemma closed_pass cfg g t e raw :
  stateChangeTime g = t -> doorClosed g = true ->
  DEBOUNCE_TIME <= e < 2 ^ 15 ->
  let r := tick cfg (to_ulong (t + e)) LOW raw g in
  stateChangeTime (fst r) = t
  /\ onDuration (fst r) = onDuration g
  /\ doorClosed (fst r) = true
  /\ running (fst r) = running g && negb (onDuration g <? e)
  /\ binging (fst r)
     = (if running g then (onDuration g <? e) || binging g
        else binging g
             && negb (to_int (onDuration g + BING_DURATION_MS) <? e))
  /\ snd r
     = (if running g && (onDuration g <? e)
        then digitalWrite LIGHT_PIN LOW
               :: ifdef_speaker cfg
                    [tone SPEAKER_PIN TONE_FREQ_BING BING_DURATION_MS]
        else []).
Proof.
  intros Ht Hc He r. subst r. unfold tick.
  assert (Hd32 : 0 <= e < 2 ^ 32).
  { unfold DEBOUNCE_TIME in He. change (2 ^ 15) with 32768 in He.
    change (2 ^ 32) with 4294967296. lia. }
  assert (Hg : debouncing (to_ulong (t + e)) g = false).
  { rewrite (debouncing_after t e) by assumption. apply Z.ltb_ge. lia. }
  assert (Hs : timeSinceClose (to_ulong (t + e)) g = e).
  { apply timeSinceClose_after; [assumption|]. unfold DEBOUNCE_TIME in He.
    lia. }
  assert (Hn : recognizes_close (at_time (to_ulong (t + e)) LOW raw) g
               = false).
  { unfold recognizes_close. fold (doorClosed g).
    now rewrite Hc, andb_false_r. }
  rewrite loop_stateChangeTime, loop_onDuration, loop_doorClosed,
    loop_running, loop_binging, loop_output, Hn.
  simpl millis_gate. simpl millis_body. simpl button.
  rewrite Hg, Hc, Hs. simpl is_LOW. simpl negb. cbv iota.
  repeat split; try reflexivity; try assumption.
Qed.

(** X15: a cook cycle in a build with the timer.  The door closes with a
    10-bit analog reading [raw], which sets a duration
    [d = 2000 + (1024 - raw) * 18], and stays closed.  A pass [e0] ms later,
    past the debounce time and not after [d], makes no call and leaves the
    timer running; a pass after [d] drives the light low and queues the
    bing, ending [running]; a pass after [d + 350] makes no call and ends
    [binging].  All elapsed times are below 32768 ms; the clock may wrap. *)
Theorem cook_cycle_timed cfg t0 raw raw0 raw1 raw2 e0 e1 e2 g :
  has_timer cfg = true ->
  0 <= raw <= 1023 ->
  recognizes_close (at_time t0 LOW raw) g = true ->
  let d := ON_DURATION_MIN_MS + (1024 - raw) * ON_DURATION_RANGE_SECS in
  DEBOUNCE_TIME <= e0 <= d ->
  d < e1 < 2 ^ 15 ->
  d + BING_DURATION_MS < e2 < 2 ^ 15 ->
  let c := tick cfg t0 LOW raw g in
  let r0 := tick cfg (to_ulong (t0 + e0)) LOW raw0 (fst c) in
  let r1 := tick cfg (to_ulong (t0 + e1)) LOW raw1 (fst r0) in
  let r2 := tick cfg (to_ulong (t0 + e2)) LOW raw2 (fst r1) in
  snd c = digitalWrite LIGHT_PIN HIGH
            :: ifdef_speaker cfg [tone SPEAKER_PIN TONE_FREQ_COOKING d]
  /\ snd r0 = [] /\ running (fst r0) = true
  /\ snd r1 = digitalWrite LIGHT_PIN LOW
                :: ifdef_speaker cfg
                     [tone SPEAKER_PIN TONE_FREQ_BING BING_DURATION_MS]
  /\ running (fst r1) = false /\ binging (fst r1) = true
  /\ snd r2 = []
  /\ running (fst r2) = false /\ binging (fst r2) = false.
Proof.
  intros Hcfg Hraw Hclose d He0 He1 He2 c r0 r1 r2.
  assert (Hd : 2018 <= d <= 20432)
    by (subst d; unfold ON_DURATION_MIN_MS, ON_DURATION_RANGE_SECS; lia).
  assert (Dc : onDuration (fst c) = d).
  { subst c d. unfold tick. rewrite loop_onDuration, Hclose, Hcfg.
    simpl analog. rewrite timer_reading_exact by assumption.
    now rewrite duration_of_reading_exact by lia. }
  apply recognizes_close_spec in Hclose as Hc. destruct Hc as (Hg & Hopen & _).
  simpl in Hg.
  assert (Tc : stateChangeTime (fst c) = t0)
    by (subst c; unfold tick; now rewrite loop_stateChangeTime, Hclose).
  assert (Cc : doorClosed (fst c) = true)
    by (subst c; unfold tick; rewrite loop_doorClosed; simpl; now rewrite Hg).
  assert (Rc : running (fst c) = true)
    by (subst c; unfold tick; rewrite loop_running; simpl;
        now rewrite Hg, Hopen).
  assert (Oc : snd c = digitalWrite LIGHT_PIN HIGH
                 :: ifdef_speaker cfg [tone SPEAKER_PIN TONE_FREQ_COOKING d]).
  { pose proof Dc as Dc'. subst c. unfold tick in *.
    rewrite loop_output. rewrite loop_onDuration, Hclose in Dc'.
    simpl millis_gate. rewrite Hg, Hopen, Dc'. simpl.
    rewrite to_ulong_small; [reflexivity|].
    change (2 ^ 32) with 4294967296. lia. }
  unfold DEBOUNCE_TIME, BING_DURATION_MS in *.
  change (2 ^ 15) with 32768 in *.
  (* before the time is up *)
  destruct (closed_pass cfg (fst c) t0 e0 raw0 Tc Cc)
    as (T0 & D0 & C0 & R0 & B0 & O0).
  { unfold DEBOUNCE_TIME. change (2 ^ 15) with 32768. lia. }
  fold r0 in T0, D0, C0, R0, B0, O0.
  rewrite Rc, Dc in R0, O0.
  replace (d <? e0) with false in R0, O0 by (symmetry; apply Z.ltb_ge; lia).
  simpl in R0, O0. rewrite Dc in D0.
  (* the time is up *)
  destruct (closed_pass cfg (fst r0) t0 e1 raw1 T0 C0)
    as (T1 & D1 & C1 & R1 & B1 & O1).
  { unfold DEBOUNCE_TIME. change (2 ^ 15) with 32768. lia. }
  fold r1 in T1, D1, C1, R1, B1, O1.
  rewrite R0, D0 in R1, B1, O1.
  replace (d <? e1) with true in R1, B1, O1 by (symmetry; apply Z.ltb_lt; lia).
  simpl in R1, B1, O1. rewrite D0 in D1.
  (* the bing is over *)
  destruct (closed_pass cfg (fst r1) t0 e2 raw2 T1 C1)
    as (T2 & D2 & C2 & R2 & B2 & O2).
  { unfold DEBOUNCE_TIME. change (2 ^ 15) with 32768. lia. }
  fold r2 in T2, D2, C2, R2, B2, O2.
  rewrite R1, D1 in R2, O2. rewrite R1, B1, D1 in B2.
  rewrite to_int_small in B2
    by (unfold BING_DURATION_MS; change (2 ^ 15) with 32768; lia).
  replace (d + BING_DURATION_MS <? e2) with true in B2
    by (symmetry; apply Z.ltb_lt; unfold BING_DURATION_MS; lia).
  simpl in R2, B2, O2.
  repeat split; assumption.
Qed.

Lemma cook_cycle_timed_witness :
  let c := tick as_shipped 200 LOW 512 door_open_state in
  let r0 := tick as_shipped (to_ulong (200 + 5000)) LOW 512 (fst c) in
  let r1 := tick as_shipped (to_ulong (200 + 11217)) LOW 512 (fst r0) in
  let r2 := tick as_shipped (to_ulong (200 + 11567)) LOW 512 (fst r1) in
  (has_timer as_shipped = true
   /\ recognizes_close (at_time 200 LOW 512) door_open_state = true
   /\ ON_DURATION_MIN_MS + (1024 - 512) * ON_DURATION_RANGE_SECS = 11216)
  /\ snd c
     = [digitalWrite LIGHT_PIN HIGH; tone SPEAKER_PIN TONE_FREQ_COOKING 11216]
  /\ snd r0 = [] /\ running (fst r0) = true
  /\ snd r1
     = [digitalWrite LIGHT_PIN LOW;
        tone SPEAKER_PIN TONE_FREQ_BING BING_DURATION_MS]
  /\ running (fst r1) = false /\ binging (fst r1) = true
  /\ snd r2 = []
  /\ running (fst r2) = false /\ binging (fst r2) = false.
Proof.
  assert (Hc : recognizes_close (at_time 200 LOW 512) door_open_state = true)
    by (vm_compute; reflexivity).
  split; [split; [reflexivity|split; [exact Hc|reflexivity]]|].
  apply (cook_cycle_timed as_shipped 200 512 512 512 512 5000 11217 11567
           door_open_state eq_refl);
    first [exact Hc | cbv; split; first [reflexivity | discriminate]].
Defined.

(** ** The door moves *)

(** X18: a pass past the debounce test drives the light high exactly when
    the switch reads differently from the recorded door position: a door
    movement is answered in the very pass that first reads it, and no other
    pass writes the light high. *)
Theorem light_high_iff_door_moved cfg inp g :
  debouncing (millis_gate inp) g = false ->
  In (digitalWrite LIGHT_PIN HIGH) (snd (loop cfg inp g))
  <-> doorClosed g <> is_LOW (button inp).
Proof.
  intros Hg. rewrite loop_output, Hg. unfold ifdef_speaker.
  destruct (doorClosed g), (is_LOW (button inp)), (has_speaker cfg);
    simpl;
    try (destruct (running g && _); simpl);
    split; intros H;
    repeat match goal with
           | H : _ \/ _ |- _ => destruct H
           | H : False |- _ => destruct H
           | H : ?x <> ?x |- _ => now destruct H
           end;
    try discriminate; try congruence; auto.
Qed.

Lemma light_high_iff_door_moved_witness :
  debouncing (millis_gate (at_time 700 HIGH 1023)) cooking_state = false
  /\ doorClosed cooking_state <> is_LOW (button (at_time 700 HIGH 1023))
  /\ In (digitalWrite LIGHT_PIN HIGH)
        (snd (loop as_shipped (at_time 700 HIGH 1023) cooking_state)).
Proof.
  assert (H : debouncing (millis_gate (at_time 700 HIGH 1023)) cooking_state
              = false) by (vm_compute; reflexivity).
  assert (Hm : doorClosed cooking_state
               <> is_LOW (button (at_time 700 HIGH 1023)))
    by (vm_compute; discriminate).
  split; [exact H|]. split; [exact Hm|].
  exact (proj2 (light_high_iff_door_moved as_shipped (at_time 700 HIGH 1023)
                  cooking_state H) Hm).
Defined.

(** * Polled passes: the [int] of line 105 is wide enough *)

Section Polled.

Variable cfg : Config.
Variable gap : Z.
Hypothesis gap_fits : 20432 + 350 + 3 * gap < 2 ^ 15.

Lemma elapsed32_range now g : 0 <= elapsed32 now g < 2 ^ 32.
Proof. unfold elapsed32, to_ulong. apply Z.mod_pos_bound. reflexivity. Qed.

Lemma elapsed32_advance last d g :
  0 <= d -> elapsed32 last g + d < 2 ^ 32 ->
  elapsed32 (to_ulong (last + d)) g = elapsed32 last g + d.
Proof.
  intros Hd Hsmall. pose proof (elapsed32_range last g) as Hr.
  unfold elapsed32, to_ulong in *.
  rewrite Zminus_mod_idemp_l.
  replace (last + d - stateChangeTime g)
    with (last - stateChangeTime g + d) by lia.
  rewrite <- Zplus_mod_idemp_l. apply Z.mod_small. lia.
Qed.

Lemma timeSinceClose_elapsed32 now g :
  elapsed32 now g < 2 ^ 15 -> timeSinceClose now g = elapsed32 now g.
Proof. exact (timeSinceClose_in_range now g). Qed.

Lemma polled_adc g last : polled cfg gap g last -> reachable_adc cfg g.
Proof.
  induction 1 as [boot|g last inp _ IH Hnext]; [apply adc_boot|].
  destruct Hnext as (d1 & d2 & _ & _ & _ & _ & Hraw).
  now apply adc_loop.
Qed.

(** Where the comparisons of a pass are looked at, the stored [int] is the
    elapsed time. *)
Lemma pending_timer_fits g last inp :
  reachable_adc cfg g -> timers_in_range gap g last ->
  next_pass gap last inp ->
  doorClosed g = true -> running g || binging g = true ->
  elapsed32 (millis_body inp) g < 2 ^ 15
  /\ timeSinceClose (millis_body inp) g = elapsed32 (millis_body inp) g.
Proof.
  intros Hadc [Ir Ib] (d1 & d2 & Hd & Hgap & _ & Hbody & _) Hc Hpending.
  destruct (duration_bounds_aux cfg g Hadc) as [Hdur _].
  pose proof (elapsed32_range last g) as Hr.
  unfold BING_DURATION_MS, ON_DURATION_MIN_MS in *.
  change (2 ^ 15) with 32768 in *. change (2 ^ 32) with 4294967296 in *.
  assert (Hlast : elapsed32 last g <= onDuration g + 350 + 2 * gap).
  { destruct (running g) eqn:Hrun.
    - specialize (Ir Hc eq_refl). lia.
    - simpl in Hpending. apply (Ib Hc Hpending). }
  assert (E : elapsed32 (millis_body inp) g = elapsed32 last g + d2).
  { rewrite Hbody. apply elapsed32_advance;
      [|change (2 ^ 32) with 4294967296]; lia. }
  assert (Hfit : elapsed32 (millis_body inp) g < 32768) by lia.
  split; [exact Hfit|]. now apply timeSinceClose_elapsed32.
Qed.

Lemma timers_in_range_step g last inp :
  reachable_adc cfg g -> timers_in_range gap g last ->
  next_pass gap last inp ->
  timers_in_range gap (fst (loop cfg inp g)) (millis_body inp).
Proof.
  intros Hadc Hinv Hnext.
  pose proof (pending_timer_fits g last inp Hadc Hinv Hnext) as Hfit.
  destruct Hinv as [Ir Ib].
  destruct Hnext as (d1 & d2 & Hd & Hgap & Hgate & Hbody & Hraw).
  destruct (duration_bounds_aux cfg g Hadc) as [Hdur Hsum].
  assert (Hadc' : reachable_adc cfg (fst (loop cfg inp g)))
    by now apply adc_loop.
  destruct (duration_bounds_aux cfg _ Hadc') as [Hdur' _].
  pose proof (proj1 (reachable_flags_ok cfg g
                       (reachable_adc_reachable cfg g Hadc))) as Hexcl.
  pose proof (elapsed32_range last g) as Hr.
  unfold timers_in_range.
  destruct (recognizes_close inp g) eqn:Hclose.
  - (* the close pass restarts the time *)
    assert (E0 : elapsed32 (millis_body inp) (fst (loop cfg inp g)) = 0).
    { unfold elapsed32. rewrite loop_stateChangeTime, Hclose.
      apply to_ulong_same. }
    rewrite E0. unfold ON_DURATION_MIN_MS, BING_DURATION_MS in *.
    split; intros _ _; lia.
  - assert (Es : elapsed32 (millis_body inp) (fst (loop cfg inp g))
                 = elapsed32 (millis_body inp) g).
    { unfold elapsed32. now rewrite loop_stateChangeTime, Hclose. }
    assert (Ed : onDuration (fst (loop cfg inp g)) = onDuration g).
    { now rewrite loop_onDuration, Hclose. }
    rewrite Es, Ed.
    rewrite loop_doorClosed, loop_running, loop_binging.
    unfold recognizes_close in Hclose. fold (doorClosed g) in Hclose.
    unfold ON_DURATION_MIN_MS, BING_DURATION_MS in *.
    change (2 ^ 15) with 32768 in *. change (2 ^ 32) with 4294967296 in *.
    destruct (debouncing (millis_gate inp) g) eqn:Hg.
    + (* skipped: the first clock reading is within the debounce time *)
      assert (Hshort : forall bound,
                 elapsed32 last g <= bound ->
                 bound <= 20432 + 350 + 2 * gap ->
                 elapsed32 (millis_body inp) g <= 100 + gap).
      { intros bound Hb1 Hb2.
        unfold debouncing in Hg. apply Z.ltb_lt in Hg.
        fold (elapsed32 (millis_gate inp) g) in Hg.
        rewrite Hgate, elapsed32_advance in Hg
          by (try change (2 ^ 32) with 4294967296; lia).
        rewrite Hbody, elapsed32_advance
          by (try change (2 ^ 32) with 4294967296; lia).
        unfold DEBOUNCE_TIME in Hg. lia. }
      split; intros Hc Hp.
      * specialize (Ir Hc Hp).
        specialize (Hshort _ Ir ltac:(lia)). lia.
      * specialize (Ib Hc Hp).
        specialize (Hshort _ Ib ltac:(lia)). lia.
    + simpl in Hclose.
      destruct (doorClosed g) eqn:Hc.
      * (* door closed before *)
        split; intros Hlow Hp; rewrite Hlow in Hp; simpl in Hp.
        -- (* still running: the time is not up *)
           apply andb_true_iff in Hp. destruct Hp as [Hrun Hnot].
           apply negb_true_iff, Z.ltb_ge in Hnot.
           destruct (Hfit eq_refl) as [_ Hts]; [now rewrite Hrun|].
           rewrite Hts in Hnot. lia.
        -- destruct (running g) eqn:Hrun.
           ++ (* the bing has just started, or was on already *)
              destruct (Hfit eq_refl eq_refl) as [_ Hts].
              specialize (Ir eq_refl eq_refl).
              assert (E : elapsed32 (millis_body inp) g
                          = elapsed32 last g + d2).
              { rewrite Hbody. apply elapsed32_advance;
                  [|change (2 ^ 32) with 4294967296]; lia. }
              lia.
           ++ (* the bing goes on: it is not over *)
              apply andb_true_iff in Hp. destruct Hp as [Hbing Hnot].
              apply negb_true_iff, Z.ltb_ge in Hnot.
              destruct (Hfit eq_refl) as [_ Hts]; [now rewrite Hbing|].
              rewrite Hts, Hsum in Hnot. lia.
      * (* door open before, and this is not a close pass *)
        simpl in Hclose. rewrite Hclose.
        split; intros Hlow; discriminate Hlow.
Qed.

Lemma polled_timers_in_range g last :
  polled cfg gap g last -> timers_in_range gap g last.
Proof.
  induction 1 as [boot|g last inp Hp IH Hnext].
  - split; intros _ H; discriminate H.
  - apply (timers_in_range_step g last); [|assumption|assumption].
    exact (polled_adc g last Hp).
Qed.

(** [loop] and [loop_full_width] agree wherever the two comparisons that
    are looked at give the same answer. *)
Lemma loop_full_width_agrees inp g :
  (doorClosed g = true -> running g = true ->
   (onDuration g <? timeSinceClose (millis_body inp) g)
   = (onDuration g <? elapsed32 (millis_body inp) g)) ->
  (doorClosed g = true -> running g = false -> binging g = true ->
   (to_int (onDuration g + BING_DURATION_MS)
    <? timeSinceClose (millis_body inp) g)
   = (onDuration g + BING_DURATION_MS <? elapsed32 (millis_body inp) g)) ->
  loop cfg inp g = loop_full_width cfg inp g.
Proof.
  intros H1 H2. unfold loop, loop_full_width.
  destruct (debouncing (millis_gate inp) g); [reflexivity|]. cbv zeta.
  set (st := sample_door (button inp) (state g)).
  assert (Fw : WAS_CLOSED st = doorClosed g) by (subst st; now flags).
  assert (Fo : IS_ON st = running g) by (subst st; now flags).
  assert (Ff : IS_OFF st = negb (running g)) by (subst st; now flags).
  assert (Fb : IS_BINGING st = binging g) by (subst st; now flags).
  rewrite Fw, Fo, Ff, Fb.
  destruct (doorClosed g); [|reflexivity].
  destruct (IS_OPEN st); [reflexivity|].
  destruct (running g).
  - now rewrite (H1 eq_refl eq_refl).
  - simpl. destruct (binging g); [|reflexivity].
    now rewrite (H2 eq_refl eq_refl eq_refl).
Qed.

End Polled.

Lemma cooking_across_wrap_polled :
  polled as_shipped 3000 cooking_across_wrap 2000.
Proof.
  unfold cooking_across_wrap.
  apply (polled_pass as_shipped 3000 _ 0 (at_time 2000 LOW 1023)).
  - apply (polled_pass as_shipped 3000 _ 4294967096 (at_time 0 LOW 1023)).
    + apply (polled_pass as_shipped 3000 _ 4294966996
               (at_time 4294967096 HIGH 1023)).
      * apply polled_boot.
      * exists 100, 100. simpl. repeat split; try lia; reflexivity.
    + exists 200, 200. simpl. repeat split; try lia; reflexivity.
  - exists 2000, 2000. simpl. repeat split; try lia; reflexivity.
Qed.




